(** * HPy trace context: call counters, cumulative durations, observers

    A shallow embedding of [trace_ctx.c] (the POSIX branch of every
    [#ifdef _WIN32]) and the properties of its accounting:

    - [update_duration]: the duration accumulator over [struct timespec];
    - [hpy_trace_ctx_init]: lazy, idempotent installation of the trace record;
    - [hpy_trace_on_enter] / [hpy_trace_on_exit]: the instrumentation hooks;
    - [create_trace_func_args]: the argument tuple of the user trace functions.

    Machine integers are [Z] with their wrap-around written out.  Calls into
    the underlying context ([uctx]) are recorded in an event log; what they
    return is decided by an [UnderlyingContext] instance. *)

From Stdlib Require Import ZArith Lia Ascii String.
From stdpp Require Import base list strings.

Local Open Scope Z_scope.

(** ** Machine integers *)

Module CInt.

Definition LONG_MAX : Z := 2 ^ 63 - 1.
Definition LONG_MIN : Z := - 2 ^ 63.
Definition UINT64_MOD : Z := 2 ^ 64.

(** [time_t] and [long] (LP64): 64-bit two's complement.  Signed overflow has
    no meaning in C; the embedding gives it the value the machine computes. *)
Definition wrap_long (z : Z) : Z := (z + 2 ^ 63) mod 2 ^ 64 - 2 ^ 63.

(** [int]: 32-bit two's complement. *)
Definition wrap_int (z : Z) : Z := (z + 2 ^ 31) mod 2 ^ 32 - 2 ^ 31.

(** [uint64_t]: arithmetic modulo [2^64]. *)
Definition wrap_uint64 (z : Z) : Z := z mod UINT64_MOD.

Definition fits_long (z : Z) : Prop := LONG_MIN <= z <= LONG_MAX.

End CInt.

Import CInt.

(** ** The duration accumulator *)

(** [_HPyTime_t] is [struct timespec] on POSIX. *)
Record timespec : Type := mkTimespec { tv_sec : Z; tv_nsec : Z }.

Definition timespec_zero : timespec := mkTimespec 0 0.

(** Modelled from the spec: [FREQ_NSEC] is defined in [trace_internal.h],
    which is not part of the sources at hand; a nanosecond-resolution duration
    has a full period of [10^9] fine units. *)
Definition FREQ_NSEC : Z := 1000000000.

(** The right-hand sides of the four compound assignments of
    [update_duration], as expression trees, so that the value added to a
    component and the values computed on the way come from one definition.
    C parses [a - b - 1] as [(a - b) - 1] and [a - b + F] as [(a - b) + F]. *)
Inductive long_expr : Type :=
| Val (z : Z)
| Minus (a b : long_expr)
| Plus (a b : long_expr).

Fixpoint eval (e : long_expr) : Z :=
  match e with
  | Val z => z
  | Minus a b => wrap_long (eval a - eval b)
  | Plus a b => wrap_long (eval a + eval b)
  end.

(** The value of every operator node of [e], operands before the node. *)
Fixpoint intermediates (e : long_expr) : list Z :=
  match e with
  | Val _ => []
  | Minus a b | Plus a b => intermediates a ++ intermediates b ++ [eval e]
  end.

Definition borrows (start end_ : timespec) : bool :=
  tv_nsec end_ <? tv_nsec start.

(** [end->tv_sec - start->tv_sec - 1] *)
Definition sec_borrow (start end_ : timespec) : long_expr :=
  Minus (Minus (Val (tv_sec end_)) (Val (tv_sec start))) (Val 1).

(** [end->tv_nsec - start->tv_nsec + FREQ_NSEC] *)
Definition nsec_borrow (start end_ : timespec) : long_expr :=
  Plus (Minus (Val (tv_nsec end_)) (Val (tv_nsec start))) (Val FREQ_NSEC).

(** [end->tv_sec - start->tv_sec] *)
Definition sec_plain (start end_ : timespec) : long_expr :=
  Minus (Val (tv_sec end_)) (Val (tv_sec start)).

(** [end->tv_nsec - start->tv_nsec] *)
Definition nsec_plain (start end_ : timespec) : long_expr :=
  Minus (Val (tv_nsec end_)) (Val (tv_nsec start)).

Definition sec_term (start end_ : timespec) : long_expr :=
  if borrows start end_ then sec_borrow start end_ else sec_plain start end_.

Definition nsec_term (start end_ : timespec) : long_expr :=
  if borrows start end_ then nsec_borrow start end_ else nsec_plain start end_.

(** [update_duration(res, start, end)]: [res] after the call. *)
Definition update_duration (res start end_ : timespec) : timespec :=
  if borrows start end_ then
    {| tv_sec := wrap_long (tv_sec res + eval (sec_borrow start end_));
       tv_nsec := wrap_long (tv_nsec res + eval (nsec_borrow start end_)) |}
  else
    {| tv_sec := wrap_long (tv_sec res + eval (sec_plain start end_));
       tv_nsec := wrap_long (tv_nsec res + eval (nsec_plain start end_)) |}.

(** Every value computed while evaluating the right-hand sides. *)
Definition update_duration_intermediates (start end_ : timespec) : list Z :=
  intermediates (sec_term start end_) ++ intermediates (nsec_term start end_).

(** The three [assert]s of [update_duration]; they vanish under [NDEBUG] and
    are kept apart from the arithmetic: [update_duration_asserts_hold] shows
    when they pass. *)
Definition update_duration_asserts (res start end_ : timespec) : bool :=
  (if borrows start end_ then tv_sec start <? tv_sec end_ else true)
  && (0 <=? tv_sec (update_duration res start end_))
  && (0 <=? tv_nsec (update_duration res start end_)).

(** A timestamp as [clock_gettime(CLOCK_MONOTONIC_RAW)] delivers it. *)
Definition valid_timestamp (t : timespec) : Prop :=
  0 <= tv_sec t <= LONG_MAX /\ 0 <= tv_nsec t < FREQ_NSEC.

(** [start <= end] on the monotonic clock. *)
Definition ts_le (start end_ : timespec) : Prop :=
  tv_sec start < tv_sec end_
  \/ (tv_sec start = tv_sec end_ /\ tv_nsec start <= tv_nsec end_).

(** The running total can take the new contribution without signed overflow. *)
Definition accumulable (total start end_ : timespec) : Prop :=
  fits_long (tv_sec total) /\ fits_long (tv_nsec total)
  /\ tv_sec total + (tv_sec end_ - tv_sec start) <= LONG_MAX
  /\ tv_nsec total + FREQ_NSEC <= LONG_MAX.

(** The length of a [timespec] in nanoseconds; used in statements only. *)
Definition to_nanoseconds (t : timespec) : Z := tv_sec t * FREQ_NSEC + tv_nsec t.

(** ** Handles, contexts and the event log *)

(** An [HPy] handle is a machine word; [HPy_NULL] is the word 0. *)
Definition HPy : Type := Z.
Definition HPy_NULL : HPy := 0.
Definition HPy_IsNull (h : HPy) : bool := h =? 0.

(** The address of an [HPyContext]. *)
Definition ctx_ptr : Type := nat.

(** A call of the HPy API on a context, with the result it gave. *)
Inductive hpy_call : Type :=
| Unicode_FromString (utf8 : string) (res : HPy)
| Tuple_FromArray (items : list HPy) (res : HPy)
| CallTupleDict (callable args kw : HPy) (res : HPy)
| Close (h : HPy)
| FatalError (msg : string)
| Err_NoMemory.

Inductive event : Type :=
| OnCtx (ctx : ctx_ptr) (c : hpy_call)
| Printf (out : string)
| Fflush_stdout
| Malloc (ok : bool)
| Clock_getres (res : timespec).

(** What the world outside [trace_ctx.c] answers, given everything that
    happened so far: the constructors and the call mechanism of the
    underlying context, [malloc], and [clock_getres]. *)
Class UnderlyingContext : Type := {
  HPyUnicode_FromString : list event -> string -> HPy;
  HPyTuple_FromArray : list event -> list HPy -> HPy;
  HPy_CallTupleDict : list event -> HPy -> HPy -> HPy -> HPy;
  malloc_succeeds : list event -> bool;
  clock_getres : list event -> timespec
}.

(** [HPyTraceInfo], with the fields [trace_ctx.c] reads and writes. *)
Record HPyTraceInfo : Type := mkInfo {
  uctx : ctx_ptr;
  counter_freq : timespec;
  call_counts : list Z;
  durations : list timespec;
  on_enter_func : HPy;
  on_exit_func : HPy
}.

(** The trace context [tctx]: its [_private] slot holds the trace record
    ([None] is [NULL]); [ctx_fields] is what [trace_ctx_init_fields] fills. *)
Record HPyContext : Type := mkCtx {
  _private : option HPyTraceInfo;
  ctx_fields : option ctx_ptr
}.

Record state : Type := mkState { tctx : HPyContext; log : list event }.

(** A call returns, or ends the process through [HPy_FatalError], or has no
    defined behaviour (a [NULL] trace record, an index outside the arrays). *)
Inductive outcome (A : Type) : Type :=
| Returned (a : A) (s : state)
| Fatal (msg : string) (s : state)
| Undefined.

Arguments Returned {A} a s.
Arguments Fatal {A} msg s.
Arguments Undefined {A}.

Definition M (A : Type) : Type := state -> outcome A.

#[global] Instance M_ret : MRet M := fun A a s => Returned a s.

#[global] Instance M_bind : MBind M := fun A B f m s =>
  match m s with
  | Returned a s' => f a s'
  | Fatal msg s' => Fatal msg s'
  | Undefined => Undefined
  end.

(** The state in which a call ended, however it ended. *)
Definition final_state {A} (o : outcome A) : option state :=
  match o with
  | Returned _ s | Fatal _ s => Some s
  | Undefined => None
  end.

Definition emit (e : event) : M unit :=
  fun s => Returned tt (mkState (tctx s) (log s ++ [e])).

(** [get_info(tctx)]: the record behind [tctx->_private]; reading through a
    [NULL] slot has no defined behaviour. *)
Definition get_info : M HPyTraceInfo :=
  fun s => match _private (tctx s) with
           | Some info => Returned info s
           | None => Undefined
           end.

Definition put_info (info : HPyTraceInfo) : M unit :=
  fun s => Returned tt (mkState (mkCtx (Some info) (ctx_fields (tctx s))) (log s)).

Definition set_call_counts (info : HPyTraceInfo) (c : list Z) : HPyTraceInfo :=
  mkInfo (uctx info) (counter_freq info) c (durations info)
         (on_enter_func info) (on_exit_func info).

Definition set_durations (info : HPyTraceInfo) (d : list timespec) : HPyTraceInfo :=
  mkInfo (uctx info) (counter_freq info) (call_counts info) d
         (on_enter_func info) (on_exit_func info).

Section TraceCtx.

Context `{UnderlyingContext}.

(** The size of the operation catalog and its display names
    ([hpy_trace_get_func_name]); both are generated outside [trace_ctx.c].
    An operation id is an [int] used as an array index only; it is a natural
    number here, valid when it is below [nfunc]. *)
Variable nfunc : nat.
Variable hpy_trace_get_func_name : nat -> string.

(** Modelled from the spec: [HPy_FatalError] is declared in the HPy headers,
    which are not part of the sources at hand; it reports [msg] on the
    context and does not return. *)
Definition HPy_FatalError {A} (u : ctx_ptr) (msg : string) : M A :=
  fun s => Fatal msg (mkState (tctx s) (log s ++ [OnCtx u (FatalError msg)])).

Definition HPyErr_NoMemory (u : ctx_ptr) : M unit :=
  emit (OnCtx u Err_NoMemory).

Definition HPy_Close (u : ctx_ptr) (h : HPy) : M unit :=
  emit (OnCtx u (Close h)).

Definition uctx_Unicode_FromString (u : ctx_ptr) (utf8 : string) : M HPy :=
  fun s => let h := HPyUnicode_FromString (log s) utf8 in
           Returned h (mkState (tctx s) (log s ++ [OnCtx u (Unicode_FromString utf8 h)])).

Definition uctx_Tuple_FromArray (u : ctx_ptr) (items : list HPy) : M HPy :=
  fun s => let h := HPyTuple_FromArray (log s) items in
           Returned h (mkState (tctx s) (log s ++ [OnCtx u (Tuple_FromArray items h)])).

Definition uctx_CallTupleDict (u : ctx_ptr) (callable args kw : HPy) : M HPy :=
  fun s => let r := HPy_CallTupleDict (log s) callable args kw in
           Returned r (mkState (tctx s) (log s ++ [OnCtx u (CallTupleDict callable args kw r)])).

(** Modelled from the spec: [trace_ctx_init_info] is generated code that is
    not part of the sources at hand; it stores the back-reference, zeroed
    counters and durations for the whole catalog, and absent observers.
    [freq] is what [clock_getres] wrote into the record before. *)
Definition trace_ctx_init_info (freq : timespec) (u : ctx_ptr) : HPyTraceInfo :=
  mkInfo u freq (replicate nfunc 0) (replicate nfunc timespec_zero)
         HPy_NULL HPy_NULL.

(** [hpy_trace_ctx_init(tctx, uctx)] *)
Definition hpy_trace_ctx_init (u : ctx_ptr) : M Z :=
  fun s =>
    match _private (tctx s) with
    | Some _ => Returned 0 s
    | None =>
        let ok := malloc_succeeds (log s) in
        let s1 := mkState (tctx s) (log s ++ [Malloc ok]) in
        if ok then
          let freq := clock_getres (log s1) in
          let info := trace_ctx_init_info freq u in
          Returned 0 (mkState (mkCtx (Some info) (Some u))
                              (log s1 ++ [Clock_getres freq]))
        else
          (_ ← HPyErr_NoMemory u; mret (-1)) s1
    end.


Definition create_trace_func_args_msg : string :=
  "could not create arguments for user trace function".

(** [create_trace_func_args(uctx, id)]; both [goto fail] reach the same
    [HPy_FatalError]. *)
Definition create_trace_func_args (u : ctx_ptr) (id : nat) : M HPy :=
  h_name ← uctx_Unicode_FromString u (hpy_trace_get_func_name id);
  if HPy_IsNull h_name then HPy_FatalError u create_trace_func_args_msg
  else
    h_args ← uctx_Tuple_FromArray u [h_name];
    if HPy_IsNull h_args then HPy_FatalError u create_trace_func_args_msg
    else
      _ ← HPy_Close u h_name;
      mret h_args.

(** [tctx_info->call_counts[id]++].  Modelled from the spec: the counters are
    unsigned integers of the 64-bit class ([HPyTraceInfo] is declared in
    [trace_internal.h], which is not part of the sources at hand), so the
    increment is modulo [2^64]. *)
Definition incr_call_count (id : nat) : M unit :=
  info ← get_info;
  match call_counts info !! id with
  | Some c => put_info (set_call_counts info (<[id := wrap_uint64 (c + 1)]> (call_counts info)))
  | None => fun _ => Undefined
  end.

Definition on_enter_msg : string := "error when executing on-enter trace function".
Definition on_exit_msg : string := "error when executing on-exit trace function".
Definition clock_msg : string := "could not get monotonic clock123".

(** The observer block of [hpy_trace_on_enter] and [hpy_trace_on_exit]:
    the two functions repeat it with their own hook and message.  What the
    observer itself does shows in the result of [HPy_CallTupleDict] only. *)
Definition call_trace_func (u : ctx_ptr) (func : HPy) (id : nat) (msg : string) : M unit :=
  if negb (HPy_IsNull func) then
    args ← create_trace_func_args u id;
    res ← uctx_CallTupleDict u func args HPy_NULL;
    _ ← HPy_Close u args;
    if HPy_IsNull res then HPy_FatalError u msg else mret tt
  else mret tt.

(** [hpy_trace_on_enter(tctx, id)]; the result is the record that
    [tctx->_private] points to. *)
Definition hpy_trace_on_enter (id : nat) : M HPyTraceInfo :=
  tctx_info ← get_info;
  let u := uctx tctx_info in
  _ ← incr_call_count id;
  tctx_info ← get_info;
  _ ← call_trace_func u (on_enter_func tctx_info) id on_enter_msg;
  get_info.

(** [CLOCK_FAILED(r0, r1)] is [(r0) + (r1)] on [int] statuses, used as a
    truth value. *)
Definition CLOCK_FAILED (r0 r1 : Z) : bool :=
  negb (wrap_int (r0 + r1) =? 0).

Definition clock_failed_line (id : nat) : string :=
  "Could not get monotonic clock in " +:+ hpy_trace_get_func_name id
    +:+ String "010"%char EmptyString.

(** [update_duration(&info->durations[id], _ts_start, _ts_end)] *)
Definition accumulate_duration (id : nat) (ts_start ts_end : timespec) : M unit :=
  info ← get_info;
  match durations info !! id with
  | Some d =>
      put_info (set_durations info
                  (<[id := update_duration d ts_start ts_end]> (durations info)))
  | None => fun _ => Undefined
  end.

(** [hpy_trace_on_exit(info, id, r0, r1, _ts_start, _ts_end)]; [info] is the
    pointer [hpy_trace_on_enter] returned, the record of [tctx]. *)
Definition hpy_trace_on_exit (id : nat) (r0 r1 : Z) (ts_start ts_end : timespec) : M unit :=
  info ← get_info;
  _ ← (if CLOCK_FAILED r0 r1 then
         _ ← emit (Printf (clock_failed_line id));
         _ ← emit Fflush_stdout;
         HPy_FatalError (uctx info) clock_msg
       else mret tt);
  _ ← accumulate_duration id ts_start ts_end;
  call_trace_func (uctx info) (on_exit_func info) id on_exit_msg.

End TraceCtx.

(** ** Notions used in the statements *)

Arguments hpy_trace_ctx_init {_} nfunc u s.
Arguments create_trace_func_args {_} hpy_trace_get_func_name u id s.
Arguments call_trace_func {_} hpy_trace_get_func_name u func id msg s.
Arguments hpy_trace_on_enter {_} hpy_trace_get_func_name id s.
Arguments hpy_trace_on_exit {_} hpy_trace_get_func_name id r0 r1 ts_start ts_end s.

(** [HPy_Close] on [h] retires one pending copy of [h]. *)
Fixpoint close_handle (h : HPy) (open : list HPy) : list HPy :=
  match open with
  | [] => []
  | h' :: rest => if h' =? h then rest else h' :: close_handle h rest
  end.

(** The handles made by the argument constructors ([HPyUnicode_FromString],
    [HPyTuple_FromArray]) in [evs] and not closed again in [evs]; [open] are
    those already pending.  A [NULL] result is no handle. *)
Fixpoint argument_handles_open (open : list HPy) (evs : list event) : list HPy :=
  match evs with
  | [] => open
  | OnCtx _ (Unicode_FromString _ h) :: rest
  | OnCtx _ (Tuple_FromArray _ h) :: rest =>
      argument_handles_open (if HPy_IsNull h then open else open ++ [h]) rest
  | OnCtx _ (Close h) :: rest =>
      argument_handles_open (close_handle h open) rest
  | _ :: rest => argument_handles_open open rest
  end.

(** The observer invocations recorded in [evs]. *)
Fixpoint observer_calls (evs : list event) : list hpy_call :=
  match evs with
  | [] => []
  | OnCtx _ (CallTupleDict f a k r) :: rest => CallTupleDict f a k r :: observer_calls rest
  | _ :: rest => observer_calls rest
  end.

(** [n] calls of [m] in a row. *)
Fixpoint repeat_call {A} (n : nat) (m : M A) : M unit :=
  match n with
  | O => mret tt
  | S k => _ ← m; repeat_call k m
  end.

(** The return value of [clock_gettime]: 0, or -1 when the read failed. *)
Definition is_clock_status (r : Z) : Prop := r = 0 \/ r = -1.

(** [s] with [evs] appended to its history. *)
Definition log_more (s : state) (evs : list event) : state :=
  mkState (tctx s) (log s ++ evs).

(** [s] with the trace record replaced by [info]. *)
Definition with_info (s : state) (info : HPyTraceInfo) : state :=
  mkState (mkCtx (Some info) (ctx_fields (tctx s))) (log s).

(** The record after [call_counts[id]++]. *)
Definition counted (info : HPyTraceInfo) (id : nat) (c : Z) : HPyTraceInfo :=
  set_call_counts info (<[id := wrap_uint64 (c + 1)]> (call_counts info)).

(** The record after [update_duration] on [durations[id]]. *)
Definition accumulated (info : HPyTraceInfo) (id : nat) (d ts_start ts_end : timespec)
  : HPyTraceInfo :=
  set_durations info (<[id := update_duration d ts_start ts_end]> (durations info)).

(** The counter and the cumulative duration of operation [j] in the state in
    which a call ended. *)
Definition counter_at {A} (o : outcome A) (j : nat) : option Z :=
  s ← final_state o; info ← _private (tctx s); call_counts info !! j.

Definition duration_at {A} (o : outcome A) (j : nat) : option timespec :=
  s ← final_state o; info ← _private (tctx s); durations info !! j.

(** The answers of the environment along one run of the observer block that
    starts with history [w]: the handle of the name string, the handle of the
    tuple, the result of the observer, and the events up to the release of
    the tuple. *)
Section ObserverPath.

Context `{UnderlyingContext}.
Variable hpy_trace_get_func_name : nat -> string.
Variables (u : ctx_ptr) (func : HPy) (id : nat) (w : list event).

Definition name_handle : HPy :=
  HPyUnicode_FromString w (hpy_trace_get_func_name id).

Definition name_event : event :=
  OnCtx u (Unicode_FromString (hpy_trace_get_func_name id) name_handle).

Definition args_handle : HPy :=
  HPyTuple_FromArray (w ++ [name_event]) [name_handle].

Definition args_event : event :=
  OnCtx u (Tuple_FromArray [name_handle] args_handle).

Definition observer_result : HPy :=
  HPy_CallTupleDict (w ++ [name_event; args_event; OnCtx u (Close name_handle)])
                    func args_handle HPy_NULL.

Definition observer_events : list event :=
  [name_event; args_event; OnCtx u (Close name_handle);
   OnCtx u (CallTupleDict func args_handle HPy_NULL observer_result);
   OnCtx u (Close args_handle)].

End ObserverPath.

Arguments name_handle {_} hpy_trace_get_func_name id w.
Arguments name_event {_} hpy_trace_get_func_name u id w.
Arguments args_handle {_} hpy_trace_get_func_name u id w.
Arguments args_event {_} hpy_trace_get_func_name u id w.
Arguments observer_result {_} hpy_trace_get_func_name u func id w.
Arguments observer_events {_} hpy_trace_get_func_name u func id w.

(** ** The Windows branch of the accumulator and of the clock test *)

Module Win32.

(** [_HPyTime_t] is [LARGE_INTEGER]; [QuadPart] is a signed 64-bit tick count.
    [res->QuadPart += end->QuadPart - start->QuadPart] *)
Definition update_duration (res start end_ : Z) : Z :=
  wrap_long (res + wrap_long (end_ - start)).

(** [assert(res->QuadPart >= 0)] *)
Definition update_duration_asserts (res start end_ : Z) : bool :=
  0 <=? update_duration res start end_.

(** [CLOCK_FAILED(r0, r1)] is [(!(r0) || !(r1))] on [BOOL] statuses. *)
Definition CLOCK_FAILED (r0 r1 : Z) : bool := (r0 =? 0) || (r1 =? 0).

End Win32.

(** ** Shutdown *)

Section Shutdown.

(** [trace_ctx_free_info] is generated code outside [trace_ctx.c]; it gets
    the pointer to the trace record only, so all it can reach is the record
    and the outside world.  It is a parameter: the record and the history it
    leaves behind. *)
Variable trace_ctx_free_info : HPyTraceInfo -> list event -> HPyTraceInfo * list event.



End Shutdown.

(** ** Runs of the call-site protocol *)

(** The nanoseconds between two clock readings. *)
Definition elapsed_ns (start end_ : timespec) : Z :=
  to_nanoseconds end_ - to_nanoseconds start.

(** A pair of readings taken around one operation. *)
Definition valid_interval (iv : timespec * timespec) : Prop :=
  valid_timestamp iv.1 /\ valid_timestamp iv.2 /\ ts_le iv.1 iv.2.

Fixpoint total_ns (ivs : list (timespec * timespec)) : Z :=
  match ivs with
  | [] => 0
  | iv :: rest => elapsed_ns iv.1 iv.2 + total_ns rest
  end.

Fixpoint sec_span (ivs : list (timespec * timespec)) : Z :=
  match ivs with
  | [] => 0
  | iv :: rest => (tv_sec iv.2 - tv_sec iv.1) + sec_span rest
  end.

(** What the call sites do for operation [id], once per pair of readings:
    [hpy_trace_on_enter], the operation itself, then [hpy_trace_on_exit] with
    the two readings, both taken successfully. *)
Fixpoint trace_calls `{UnderlyingContext} (names : nat -> string) (id : nat)
    (ivs : list (timespec * timespec)) : M unit :=
  match ivs with
  | [] => mret tt
  | iv :: rest =>
      _ ← hpy_trace_on_enter names id;
      _ ← hpy_trace_on_exit names id 0 0 iv.1 iv.2;
      trace_calls names id rest
  end.

(** The messages given to [HPy_FatalError] in [evs], each with the context it
    was reported on. *)
Fixpoint fatal_reports (evs : list event) : list (ctx_ptr * string) :=
  match evs with
  | [] => []
  | OnCtx u (FatalError msg) :: rest => (u, msg) :: fatal_reports rest
  | _ :: rest => fatal_reports rest
  end.

(** The text written to standard output in [evs]. *)
Fixpoint printed_lines (evs : list event) : list string :=
  match evs with
  | [] => []
  | Printf out :: rest => out :: printed_lines rest
  | _ :: rest => printed_lines rest
  end.

(** Whether [text] contains [name]. *)
Definition mentions (name text : string) : bool :=
  match String.index 0 name text with
  | Some _ => true
  | None => false
  end.

(** The message with which a call ended in [HPy_FatalError], if it did. *)
Definition fatal_message {A} (o : outcome A) : option string :=
  match o with
  | Fatal msg _ => Some msg
  | _ => None
  end.

(** The handles closed in [evs]. *)
Fixpoint closed_handles (evs : list event) : list HPy :=
  match evs with
  | [] => []
  | OnCtx _ (Close h) :: rest => h :: closed_handles rest
  | _ :: rest => closed_handles rest
  end.

(** ** Concrete catalogs and environments *)

Module Scenario.

(** The catalog of three operations: alloc is 0, free is 1, call is 2. *)
Definition names (id : nat) : string :=
  match id with
  | O => "alloc"
  | S O => "free"
  | _ => "call"
  end.

Definition fresh (w : list event) : HPy := Z.of_nat (length w) + 1000.

Definition a_resolution : timespec := mkTimespec 0 1.

(** Every call of the environment succeeds and hands out a new handle. *)
Definition healthy : UnderlyingContext :=
  {| HPyUnicode_FromString w _ := fresh w;
     HPyTuple_FromArray w _ := fresh w;
     HPy_CallTupleDict w _ _ _ := fresh w;
     malloc_succeeds _ := true;
     clock_getres _ := a_resolution |}.

(** The name string cannot be made. *)
Definition name_fails : UnderlyingContext :=
  {| HPyUnicode_FromString _ _ := HPy_NULL;
     HPyTuple_FromArray w _ := fresh w;
     HPy_CallTupleDict w _ _ _ := fresh w;
     malloc_succeeds _ := true;
     clock_getres _ := a_resolution |}.

(** The name string is made, the tuple around it is not. *)
Definition tuple_fails : UnderlyingContext :=
  {| HPyUnicode_FromString w _ := fresh w;
     HPyTuple_FromArray _ _ := HPy_NULL;
     HPy_CallTupleDict w _ _ _ := fresh w;
     malloc_succeeds _ := true;
     clock_getres _ := a_resolution |}.

(** The observer raises: its call gives [HPy_NULL]. *)
Definition observer_fails : UnderlyingContext :=
  {| HPyUnicode_FromString w _ := fresh w;
     HPyTuple_FromArray w _ := fresh w;
     HPy_CallTupleDict _ _ _ _ := HPy_NULL;
     malloc_succeeds _ := true;
     clock_getres _ := a_resolution |}.

(** [malloc] gives [NULL]. *)
Definition no_memory : UnderlyingContext :=
  {| HPyUnicode_FromString w _ := fresh w;
     HPyTuple_FromArray w _ := fresh w;
     HPy_CallTupleDict w _ _ _ := fresh w;
     malloc_succeeds _ := false;
     clock_getres _ := a_resolution |}.

(** A trace context that was never initialized, with an empty history. *)
Definition blank : state := mkState (mkCtx None None) [].

(** An initialized context for underlying context 7 with the given hooks. *)
Definition hooked (enter exit_ : HPy) : state :=
  mkState (mkCtx (Some (mkInfo 7%nat a_resolution [0; 0; 0]
                          (replicate 3 timespec_zero) enter exit_))
                 (Some 7%nat)) [].

End Scenario.

(** ** Further environments *)

Module Recovery.

(** An environment in which [malloc] fails while nothing has happened yet
    and succeeds from then on. *)
Definition memory_returns : UnderlyingContext :=
  {| HPyUnicode_FromString w _ := Scenario.fresh w;
     HPyTuple_FromArray w _ := Scenario.fresh w;
     HPy_CallTupleDict w _ _ _ := Scenario.fresh w;
     malloc_succeeds w := negb (Nat.eqb (length w) 0);
     clock_getres _ := Scenario.a_resolution |}.


(** A record whose counter for operation 0 is at its maximum. *)
Definition saturated : state :=
  mkState (mkCtx (Some (mkInfo 7%nat Scenario.a_resolution [2 ^ 64 - 1; 0; 0]
                          (replicate 3 timespec_zero) HPy_NULL HPy_NULL))
                 (Some 7%nat)) [].

End Recovery.

(** * Properties *)

(** ** Machine integers *)

Section CIntFacts.

Lemma wrap_long_fits z : fits_long z -> wrap_long z = z.
Proof.
  unfold fits_long, wrap_long, LONG_MIN, LONG_MAX. intros Hz.
  rewrite Z.mod_small; lia.
Qed.

Lemma wrap_long_range z : fits_long (wrap_long z).
Proof.
  unfold fits_long, wrap_long, LONG_MIN, LONG_MAX.
  pose proof (Z.mod_pos_bound (z + 2 ^ 63) (2 ^ 64) ltac:(lia)). lia.
Qed.

Lemma wrap_long_idem z : wrap_long (wrap_long z) = wrap_long z.
Proof. apply wrap_long_fits, wrap_long_range. Qed.

Lemma wrap_int_small z : - 2 ^ 31 <= z < 2 ^ 31 -> wrap_int z = z.
Proof. unfold wrap_int. intros Hz. rewrite Z.mod_small; lia. Qed.

Lemma wrap_uint64_small z : 0 <= z < UINT64_MOD -> wrap_uint64 z = z.
Proof. unfold wrap_uint64. apply Z.mod_small. Qed.

End CIntFacts.

(** ** The duration accumulator *)

Section Accumulator.

Implicit Types total res start : timespec.

(** The call adds, to each component, the component of the elapsed time as
    [update_duration] itself measures it from zero. *)
Lemma update_duration_adds res start end_ :
  let d := update_duration timespec_zero start end_ in
  update_duration res start end_ =
    {| tv_sec := wrap_long (tv_sec res + tv_sec d);
       tv_nsec := wrap_long (tv_nsec res + tv_nsec d) |}.
Proof.
  unfold update_duration. destruct (borrows start end_); cbn;
    rewrite !Z.add_0_l, !wrap_long_idem; reflexivity.
Qed.

(** With valid, ordered timestamps nothing wraps while the elapsed time is
    computed. *)
Lemma sec_term_exact start end_ :
  valid_timestamp start -> valid_timestamp end_ -> ts_le start end_ ->
  eval (sec_term start end_) =
    tv_sec end_ - tv_sec start - (if borrows start end_ then 1 else 0)
  /\ 0 <= eval (sec_term start end_) <= tv_sec end_ - tv_sec start.
Proof.
  unfold valid_timestamp, ts_le, sec_term, borrows, LONG_MAX.
  intros [Hs Hsn] [He Hen] Hle.
  destruct (Z.ltb_spec (tv_nsec end_) (tv_nsec start)); cbn;
    rewrite ?(wrap_long_fits (tv_sec end_ - tv_sec start));
    rewrite ?wrap_long_fits; unfold fits_long, LONG_MIN, LONG_MAX; lia.
Qed.

Lemma nsec_term_exact start end_ :
  valid_timestamp start -> valid_timestamp end_ ->
  eval (nsec_term start end_) =
    tv_nsec end_ - tv_nsec start + (if borrows start end_ then FREQ_NSEC else 0)
  /\ 0 <= eval (nsec_term start end_) < FREQ_NSEC.
Proof.
  unfold valid_timestamp, nsec_term, borrows, FREQ_NSEC.
  intros [Hs Hsn] [He Hen].
  destruct (Z.ltb_spec (tv_nsec end_) (tv_nsec start)); cbn;
    rewrite ?(wrap_long_fits (tv_nsec end_ - tv_nsec start));
    rewrite ?wrap_long_fits; unfold fits_long, LONG_MIN, LONG_MAX, FREQ_NSEC; lia.
Qed.

Lemma update_duration_exact total start end_ :
  valid_timestamp start -> valid_timestamp end_ -> ts_le start end_ ->
  accumulable total start end_ ->
  update_duration total start end_ =
    {| tv_sec := tv_sec total + eval (sec_term start end_);
       tv_nsec := tv_nsec total + eval (nsec_term start end_) |}.
Proof.
  intros Hs He Hle (Hts & Htn & Hsec & Hnsec).
  destruct (sec_term_exact start end_ Hs He Hle) as [_ Hsr].
  destruct (nsec_term_exact start end_ Hs He) as [_ Hnr].
  unfold update_duration, sec_term, nsec_term in *.
  unfold fits_long, LONG_MIN, LONG_MAX, FREQ_NSEC in *.
  destruct (borrows start end_); f_equal;
    apply wrap_long_fits; unfold fits_long, LONG_MIN, LONG_MAX; lia.
Qed.

(** The [assert]s of [update_duration] pass for a non-negative running total
    and ordered clock readings. *)
Lemma update_duration_asserts_hold total start end_ :
  valid_timestamp start -> valid_timestamp end_ -> ts_le start end_ ->
  accumulable total start end_ ->
  0 <= tv_sec total -> 0 <= tv_nsec total ->
  update_duration_asserts total start end_ = true.
Proof.
  intros Hs He Hle Hacc H0s H0n. unfold update_duration_asserts.
  rewrite (update_duration_exact total start end_ Hs He Hle Hacc). cbn.
  destruct (sec_term_exact start end_ Hs He Hle) as [_ Hsr].
  destruct (nsec_term_exact start end_ Hs He) as [_ Hnr].
  assert (Hb : (if borrows start end_ then tv_sec start <? tv_sec end_ else true) = true).
  { unfold borrows, ts_le in *.
    destruct (Z.ltb_spec (tv_nsec end_) (tv_nsec start)); [|done].
    apply Z.ltb_lt. lia. }
  rewrite Hb. cbn. apply andb_true_intro. split; apply Z.leb_le; lia.
Qed.

End Accumulator.

(** *** C1: the worked carry example *)

(** C1, as stated, fails: accumulating (0s,999999999ns) and then (1s,1ns)
    into a zeroed total does not give (2s,0ns); the fine component ends at
    [10^9]. *)
Lemma update_duration_carry_counterexample :
  update_duration
    (update_duration timespec_zero (mkTimespec 0 0) (mkTimespec 0 999999999))
    (mkTimespec 0 0) (mkTimespec 1 1)
  <> mkTimespec 2 0.
Proof. vm_compute. discriminate. Qed.

(** C1, amended: whatever clock readings produce the two durations
    (0s,999999999ns) and (1s,1ns), accumulating them into a zeroed total gives
    (1s,1000000000ns): each component is summed on its own and the fine
    component is not carried into the coarse one.  The total is two seconds
    long, as (2s,0ns) is. *)
Theorem update_duration_sums_componentwise (s1 e1 s2 e2 : timespec) :
  update_duration timespec_zero s1 e1 = mkTimespec 0 999999999 ->
  update_duration timespec_zero s2 e2 = mkTimespec 1 1 ->
  update_duration (update_duration timespec_zero s1 e1) s2 e2
    = mkTimespec 1 1000000000
  /\ to_nanoseconds (update_duration (update_duration timespec_zero s1 e1) s2 e2)
     = to_nanoseconds (mkTimespec 2 0).
Proof.
  intros H1 H2.
  assert (Hsum : update_duration (update_duration timespec_zero s1 e1) s2 e2
                 = mkTimespec 1 1000000000).
  { rewrite (update_duration_adds _ s2 e2). cbv zeta. rewrite H1, H2.
    vm_compute. reflexivity. }
  split; [exact Hsum | rewrite Hsum; reflexivity].
Qed.

Lemma update_duration_sums_componentwise_witness :
  update_duration
    (update_duration timespec_zero (mkTimespec 5 1) (mkTimespec 6 0))
    (mkTimespec 6 0) (mkTimespec 7 1)
  = mkTimespec 1 1000000000.
Proof.
  apply (update_duration_sums_componentwise
           (mkTimespec 5 1) (mkTimespec 6 0) (mkTimespec 6 0) (mkTimespec 7 1));
    vm_compute; reflexivity.
Defined.

(** *** C2: monotone accumulation and the values computed on the way *)

(** C2, as stated, fails: with valid, ordered readings in the borrow case the
    subtraction [end->tv_nsec - start->tv_nsec] is evaluated first, and its
    value is negative. *)
Lemma update_duration_negative_intermediate :
  valid_timestamp (mkTimespec 0 5) /\ valid_timestamp (mkTimespec 1 3)
  /\ ts_le (mkTimespec 0 5) (mkTimespec 1 3)
  /\ tv_sec (mkTimespec 0 5) < tv_sec (mkTimespec 1 3)
  /\ In (-2) (update_duration_intermediates (mkTimespec 0 5) (mkTimespec 1 3))
  /\ ~ Forall (fun v => 0 <= v)
         (update_duration_intermediates (mkTimespec 0 5) (mkTimespec 1 3)).
Proof.
  assert (Hin : In (-2) (update_duration_intermediates (mkTimespec 0 5) (mkTimespec 1 3))).
  { vm_compute. right; right; left; reflexivity. }
  unfold valid_timestamp, ts_le, LONG_MAX, FREQ_NSEC. cbn [tv_sec tv_nsec].
  repeat split; try lia; [exact Hin|].
  intros Hall. rewrite List.Forall_forall in Hall. specialize (Hall _ Hin). lia.
Qed.

(** C2, amended: for valid readings with [start <= end] and a total that the
    signed 64-bit components can hold, both components of the total end up
    greater than or equal to what they were, by exactly the amounts
    [update_duration] computes, and those amounts are not negative.  Every
    value computed for the coarse component is non-negative, and so is every
    value computed for the fine component when there is no borrow.  In the
    borrow case the fine component is computed as the difference
    [end->tv_nsec - start->tv_nsec], which is negative, and then the full
    period is added to it, which makes it positive. *)
Theorem update_duration_monotone (total start end_ : timespec) :
  valid_timestamp start -> valid_timestamp end_ -> ts_le start end_ ->
  accumulable total start end_ ->
  let r := update_duration total start end_ in
  (tv_sec total <= tv_sec r /\ tv_nsec total <= tv_nsec r)
  /\ (tv_sec r = tv_sec total + eval (sec_term start end_)
      /\ tv_nsec r = tv_nsec total + eval (nsec_term start end_)
      /\ 0 <= eval (sec_term start end_) /\ 0 <= eval (nsec_term start end_))
  /\ Forall (fun v => 0 <= v) (intermediates (sec_term start end_))
  /\ (borrows start end_ = false ->
      Forall (fun v => 0 <= v) (intermediates (nsec_term start end_)))
  /\ (borrows start end_ = true ->
      tv_sec start < tv_sec end_
      /\ intermediates (nsec_term start end_)
         = [tv_nsec end_ - tv_nsec start; tv_nsec end_ - tv_nsec start + FREQ_NSEC]
      /\ tv_nsec end_ - tv_nsec start < 0 < tv_nsec end_ - tv_nsec start + FREQ_NSEC).
Proof.
  intros Hs He Hle Hacc r. subst r.
  rewrite (update_duration_exact total start end_ Hs He Hle Hacc). cbn [tv_sec tv_nsec].
  destruct (sec_term_exact start end_ Hs He Hle) as [Hse Hsr].
  destruct (nsec_term_exact start end_ Hs He) as [Hne Hnr].
  split; [lia|]. split; [lia|].
  destruct Hs as [Hs Hsn], He as [He Hen].
  assert (Hd : fits_long (tv_sec end_ - tv_sec start))
    by (unfold fits_long, LONG_MIN, LONG_MAX in *; lia).
  assert (Hn : fits_long (tv_nsec end_ - tv_nsec start))
    by (unfold fits_long, LONG_MIN, LONG_MAX, FREQ_NSEC in *; lia).
  unfold sec_term, nsec_term, ts_le in *.
  destruct (borrows start end_) eqn:Hb; unfold borrows in Hb.
  - apply Z.ltb_lt in Hb. cbn in *. rewrite !(wrap_long_fits _ Hd) in *.
    rewrite !(wrap_long_fits _ Hn) in *.
    split; [repeat constructor; lia|]. split; [discriminate|]. intros _.
    split; [lia|]. rewrite Hne. split; [reflexivity|]. unfold FREQ_NSEC in *. lia.
  - apply Z.ltb_ge in Hb. cbn in *. rewrite !(wrap_long_fits _ Hd) in *.
    rewrite !(wrap_long_fits _ Hn) in *.
    split; [repeat constructor; lia|]. split; [|discriminate]. intros _.
    repeat constructor; lia.
Qed.

Lemma update_duration_monotone_witness :
  tv_sec (mkTimespec 3 10) <= tv_sec (update_duration (mkTimespec 3 10) (mkTimespec 0 5) (mkTimespec 1 3))
  /\ tv_nsec (mkTimespec 3 10) <= tv_nsec (update_duration (mkTimespec 3 10) (mkTimespec 0 5) (mkTimespec 1 3)).
Proof.
  apply (update_duration_monotone (mkTimespec 3 10) (mkTimespec 0 5) (mkTimespec 1 3));
    unfold valid_timestamp, ts_le, accumulable, fits_long, LONG_MIN, LONG_MAX, FREQ_NSEC;
    cbn [tv_sec tv_nsec]; lia.
Defined.

(** ** The observer block *)

Section Observer.

Context `{UnderlyingContext}.
Variable names : nat -> string.

(** [create_trace_func_args], case by case. *)
Lemma create_trace_func_args_cases u id s :
  create_trace_func_args names u id s =
    if HPy_IsNull (name_handle names id (log s)) then
      Fatal create_trace_func_args_msg
        (log_more s [name_event names u id (log s);
                     OnCtx u (FatalError create_trace_func_args_msg)])
    else if HPy_IsNull (args_handle names u id (log s)) then
      Fatal create_trace_func_args_msg
        (log_more s [name_event names u id (log s); args_event names u id (log s);
                     OnCtx u (FatalError create_trace_func_args_msg)])
    else
      Returned (args_handle names u id (log s))
        (log_more s [name_event names u id (log s); args_event names u id (log s);
                     OnCtx u (Close (name_handle names id (log s)))]).
Proof.
  unfold create_trace_func_args, uctx_Unicode_FromString, uctx_Tuple_FromArray,
    HPy_FatalError, HPy_Close, emit, mbind, M_bind, mret, M_ret, log_more,
    args_handle, args_event, name_event, name_handle.
  cbn. destruct (HPy_IsNull (HPyUnicode_FromString _ _)); cbn.
  - by rewrite <- app_assoc.
  - destruct (HPy_IsNull (HPyTuple_FromArray _ _)); cbn;
      by rewrite <- !app_assoc.
Qed.

(** The observer block, case by case: no hook; no name string; no tuple;
    the observer failed; the observer returned. *)
Lemma call_trace_func_cases u func id msg s :
  call_trace_func names u func id msg s =
    if HPy_IsNull func then Returned tt s
    else if HPy_IsNull (name_handle names id (log s)) then
      Fatal create_trace_func_args_msg
        (log_more s [name_event names u id (log s);
                     OnCtx u (FatalError create_trace_func_args_msg)])
    else if HPy_IsNull (args_handle names u id (log s)) then
      Fatal create_trace_func_args_msg
        (log_more s [name_event names u id (log s); args_event names u id (log s);
                     OnCtx u (FatalError create_trace_func_args_msg)])
    else if HPy_IsNull (observer_result names u func id (log s)) then
      Fatal msg (log_more s (observer_events names u func id (log s)
                             ++ [OnCtx u (FatalError msg)]))
    else
      Returned tt (log_more s (observer_events names u func id (log s))).
Proof.
  unfold call_trace_func. destruct (HPy_IsNull func); [reflexivity|]. cbn [negb].
  unfold mbind at 1, M_bind at 1. rewrite create_trace_func_args_cases.
  destruct (HPy_IsNull (name_handle _ _ _)); [reflexivity|].
  destruct (HPy_IsNull (args_handle _ _ _ _)); [reflexivity|].
  unfold uctx_CallTupleDict, HPy_FatalError, HPy_Close, emit, mbind, M_bind,
    mret, M_ret, log_more, observer_events, observer_result.
  cbn. destruct (HPy_IsNull (HPy_CallTupleDict _ _ _ _)); cbn;
    by rewrite <- !app_assoc.
Qed.

(** The observer block never touches the trace context and never leaves
    defined behaviour. *)
Lemma call_trace_func_tctx u func id msg s :
  exists s', final_state (call_trace_func names u func id msg s) = Some s'
             /\ tctx s' = tctx s.
Proof.
  rewrite call_trace_func_cases.
  repeat match goal with |- context [if ?b then _ else _] => destruct b end;
    eexists; split; reflexivity.
Qed.

End Observer.

(** ** The instrumentation hooks *)

Section Hooks.

Context `{UnderlyingContext}.
Variable names : nat -> string.

Implicit Types (s : state) (info : HPyTraceInfo) (id : nat).

(** [hpy_trace_on_enter]: the counter first, then the observer block. *)
Lemma on_enter_steps id s info c :
  _private (tctx s) = Some info ->
  call_counts info !! id = Some c ->
  hpy_trace_on_enter names id s =
    (_ ← call_trace_func names (uctx info) (on_enter_func info) id on_enter_msg;
     get_info) (with_info s (counted info id c)).
Proof.
  intros Hp Hc.
  unfold hpy_trace_on_enter, incr_call_count, get_info, put_info,
    mbind, M_bind, with_info, counted.
  rewrite Hp. cbn. rewrite Hp, Hc. reflexivity.
Qed.

(** However the observer block ends, the call leaves the record with
    [call_counts[id]] incremented and nothing else changed. *)
Lemma on_enter_increments id s info c :
  _private (tctx s) = Some info ->
  call_counts info !! id = Some c ->
  exists s', final_state (hpy_trace_on_enter names id s) = Some s'
             /\ _private (tctx s') = Some (counted info id c).
Proof.
  intros Hp Hc. rewrite (on_enter_steps id s info c Hp Hc).
  unfold mbind, M_bind.
  destruct (call_trace_func_tctx names (uctx info) (on_enter_func info) id
              on_enter_msg (with_info s (counted info id c))) as (s' & Hfin & Ht).
  destruct (call_trace_func _ _ _ _ _ _) as [[] s1 | m s1 |]; cbn in Hfin;
    [| |discriminate]; injection Hfin as ->.
  - unfold get_info. rewrite Ht. cbn. eexists; split; [reflexivity|].
    rewrite Ht. reflexivity.
  - cbn. eexists; split; [reflexivity|]. rewrite Ht. reflexivity.
Qed.

(** [hpy_trace_on_exit] with both clock reads successful: the duration
    first, then the observer block. *)
Lemma on_exit_steps id r0 r1 ts_start ts_end s info d :
  _private (tctx s) = Some info ->
  durations info !! id = Some d ->
  CLOCK_FAILED r0 r1 = false ->
  hpy_trace_on_exit names id r0 r1 ts_start ts_end s =
    call_trace_func names (uctx info) (on_exit_func info) id on_exit_msg
      (with_info s (accumulated info id d ts_start ts_end)).
Proof.
  intros Hp Hd Hclk.
  unfold hpy_trace_on_exit, accumulate_duration, get_info, put_info,
    mbind, M_bind, mret, M_ret, with_info, accumulated.
  rewrite Hp, Hclk. cbn. rewrite Hp, Hd. reflexivity.
Qed.

Lemma CLOCK_FAILED_statuses r0 r1 :
  is_clock_status r0 -> is_clock_status r1 ->
  CLOCK_FAILED r0 r1 = negb ((r0 =? 0) && (r1 =? 0)).
Proof. intros [-> | ->] [-> | ->]; reflexivity. Qed.

(** Outside the return values of [clock_gettime] the sum is no test of
    failure: two statuses that cancel pass for success. *)
Remark CLOCK_FAILED_cancelling : CLOCK_FAILED 1 (-1) = false.
Proof. reflexivity. Qed.

(** *** C3: a failed clock read is fatal and nothing is accumulated *)

(** C3, amended: for statuses as [clock_gettime] returns them, when either of
    the two clock reads failed, [hpy_trace_on_exit] writes one line that names
    the operation to standard output, flushes it, and ends in
    [HPy_FatalError] on the underlying context with one fixed message, the
    same for every operation; the trace record, and with it [durations[id]],
    is as it was before the call. *)
Theorem on_exit_clock_failure_is_fatal id r0 r1 ts_start ts_end s info :
  _private (tctx s) = Some info ->
  is_clock_status r0 -> is_clock_status r1 ->
  r0 <> 0 \/ r1 <> 0 ->
  exists s',
    hpy_trace_on_exit names id r0 r1 ts_start ts_end s
    = Fatal "could not get monotonic clock123" s'
    /\ tctx s' = tctx s
    /\ log s' = log s ++
         [Printf ("Could not get monotonic clock in " +:+ names id
                    +:+ String "010"%char EmptyString);
          Fflush_stdout;
          OnCtx (uctx info) (FatalError "could not get monotonic clock123")]
    /\ printed_lines (drop (length (log s)) (log s'))
       = ["Could not get monotonic clock in " +:+ names id
            +:+ String "010"%char EmptyString]
    /\ fatal_reports (drop (length (log s)) (log s'))
       = [(uctx info, "could not get monotonic clock123")]
    /\ forall j, duration_at (hpy_trace_on_exit names id r0 r1 ts_start ts_end s) j
                 = durations info !! j.
Proof.
  intros Hp H0 H1 Hfail.
  assert (Hclk : CLOCK_FAILED r0 r1 = true).
  { rewrite CLOCK_FAILED_statuses by assumption.
    destruct H0 as [-> | ->], H1 as [-> | ->]; try reflexivity.
    destruct Hfail; congruence. }
  assert (Heq : hpy_trace_on_exit names id r0 r1 ts_start ts_end s =
    Fatal "could not get monotonic clock123"
      (log_more s [Printf (clock_failed_line names id); Fflush_stdout;
                   OnCtx (uctx info) (FatalError "could not get monotonic clock123")])).
  { unfold hpy_trace_on_exit, get_info, HPy_FatalError, emit, mbind, M_bind, log_more.
    rewrite Hp, Hclk. cbn. by rewrite <- !app_assoc. }
  eexists. split; [exact Heq|]. split; [reflexivity|]. split; [reflexivity|].
  unfold log_more. cbn [log]. rewrite drop_app_length.
  split; [reflexivity|]. split; [reflexivity|].
  intros j. rewrite Heq. unfold duration_at. cbn. rewrite Hp. reflexivity.
Qed.

(** *** C6: observer fan-out *)

(** C6, amended: [hpy_trace_on_enter] increments [call_counts[id]], modulo
    [2^64], whether or not an observer is installed and however the call
    ends.  Without an observer it makes no call on the underlying context.
    With an observer installed and its argument built, the call records
    exactly one observer invocation: the callable is the on-enter hook, the
    positional arguments are the tuple made from the one string made from the
    operation's display name, and the keyword arguments are [HPy_NULL].  With
    an observer installed and a name string or a tuple that cannot be made,
    the call ends in [HPy_FatalError] and the observer is not invoked. *)
Theorem on_enter_observer_fan_out id s info c :
  _private (tctx s) = Some info ->
  call_counts info !! id = Some c ->
  (exists s' info',
     final_state (hpy_trace_on_enter names id s) = Some s'
     /\ _private (tctx s') = Some info'
     /\ call_counts info' = <[id := (c + 1) mod 2 ^ 64]> (call_counts info)
     /\ call_counts info' !! id = Some ((c + 1) mod 2 ^ 64))
  /\ (HPy_IsNull (on_enter_func info) = true ->
      hpy_trace_on_enter names id s
      = Returned (counted info id c) (with_info s (counted info id c))
      /\ log (with_info s (counted info id c)) = log s)
  /\ (HPy_IsNull (on_enter_func info) = false ->
      HPy_IsNull (name_handle names id (log s)) = false ->
      HPy_IsNull (args_handle names (uctx info) id (log s)) = false ->
      let u := uctx info in
      let h_name := name_handle names id (log s) in
      let h_args := args_handle names u id (log s) in
      let res := observer_result names u (on_enter_func info) id (log s) in
      exists s' tail,
        final_state (hpy_trace_on_enter names id s) = Some s'
        /\ log s' = log s ++
             [OnCtx u (Unicode_FromString (names id) h_name);
              OnCtx u (Tuple_FromArray [h_name] h_args);
              OnCtx u (Close h_name);
              OnCtx u (CallTupleDict (on_enter_func info) h_args HPy_NULL res);
              OnCtx u (Close h_args)] ++ tail
        /\ observer_calls (drop (length (log s)) (log s'))
           = [CallTupleDict (on_enter_func info) h_args HPy_NULL res]
        /\ tail = (if HPy_IsNull res
                   then [OnCtx u (FatalError "error when executing on-enter trace function")]
                   else []))
  /\ (HPy_IsNull (on_enter_func info) = false ->
      HPy_IsNull (name_handle names id (log s)) = true
      \/ HPy_IsNull (args_handle names (uctx info) id (log s)) = true ->
      exists s',
        hpy_trace_on_enter names id s
        = Fatal "could not create arguments for user trace function" s'
        /\ observer_calls (drop (length (log s)) (log s')) = []).
Proof.
  intros Hp Hc. split; [|split; [|split]].
  - destruct (on_enter_increments id s info c Hp Hc) as (s' & Hfin & Hp').
    exists s', (counted info id c). split; [exact Hfin|]. split; [exact Hp'|].
    split; [reflexivity|].
    unfold counted, set_call_counts, wrap_uint64, UINT64_MOD. cbn.
    apply list_lookup_insert_eq. by eapply lookup_lt_Some.
  - intros Hnull. rewrite (on_enter_steps id s info c Hp Hc).
    unfold mbind, M_bind. rewrite call_trace_func_cases, Hnull.
    split; reflexivity.
  - intros Hf Hn Ha u h_name h_args res. subst u h_name h_args res.
    rewrite (on_enter_steps id s info c Hp Hc).
    unfold mbind, M_bind. rewrite call_trace_func_cases.
    change (log (with_info s (counted info id c))) with (log s).
    change (uctx (counted info id c)) with (uctx info).
    rewrite Hf, Hn, Ha.
    destruct (HPy_IsNull (observer_result _ _ _ _ _)) eqn:Hres; cbn;
      eexists; eexists; (split; [reflexivity|]); cbn;
      (split; [reflexivity|]); (split; [|reflexivity]);
      rewrite drop_app_length; reflexivity.
  - intros Hf Hcannot. rewrite (on_enter_steps id s info c Hp Hc).
    unfold mbind, M_bind. rewrite call_trace_func_cases.
    change (log (with_info s (counted info id c))) with (log s).
    rewrite Hf.
    destruct (HPy_IsNull (name_handle names id (log s))) eqn:Hn.
    + eexists. split; [reflexivity|]. unfold log_more. cbn [log with_info].
      rewrite drop_app_length. reflexivity.
    + destruct Hcannot as [Hcannot | Ha]; [discriminate|]. rewrite Ha.
      eexists. split; [reflexivity|]. unfold log_more. cbn [log with_info].
      rewrite drop_app_length. reflexivity.
Qed.

(** *** C7: a failing observer is fatal *)

(** C7: when the installed observer gives back [HPy_NULL], the call ends in
    [HPy_FatalError] on the underlying context right after the one
    invocation and the release of its argument; the message of
    [hpy_trace_on_enter] and the message of [hpy_trace_on_exit] differ. *)
Theorem observer_failure_is_fatal id r0 r1 ts_start ts_end s info c d :
  _private (tctx s) = Some info ->
  call_counts info !! id = Some c ->
  durations info !! id = Some d ->
  r0 = 0 -> r1 = 0 ->
  HPy_IsNull (name_handle names id (log s)) = false ->
  HPy_IsNull (args_handle names (uctx info) id (log s)) = false ->
  let u := uctx info in
  (HPy_IsNull (on_enter_func info) = false ->
   HPy_IsNull (observer_result names u (on_enter_func info) id (log s)) = true ->
   hpy_trace_on_enter names id s =
     Fatal "error when executing on-enter trace function"
       (log_more (with_info s (counted info id c))
          (observer_events names u (on_enter_func info) id (log s)
           ++ [OnCtx u (FatalError "error when executing on-enter trace function")])))
  /\ (HPy_IsNull (on_exit_func info) = false ->
      HPy_IsNull (observer_result names u (on_exit_func info) id (log s)) = true ->
      hpy_trace_on_exit names id r0 r1 ts_start ts_end s =
        Fatal "error when executing on-exit trace function"
          (log_more (with_info s (accumulated info id d ts_start ts_end))
             (observer_events names u (on_exit_func info) id (log s)
              ++ [OnCtx u (FatalError "error when executing on-exit trace function")])))
  /\ (forall f, length (observer_calls (observer_events names u f id (log s))) = 1%nat)
  /\ on_enter_msg <> on_exit_msg.
Proof.
  intros Hp Hc Hd -> -> Hn Ha u. subst u. repeat split.
  - intros Hf Hres. rewrite (on_enter_steps id s info c Hp Hc).
    unfold mbind, M_bind. rewrite call_trace_func_cases.
    change (log (with_info s (counted info id c))) with (log s).
    rewrite Hf, Hn, Ha, Hres. reflexivity.
  - intros Hf Hres.
    rewrite (on_exit_steps id 0 0 ts_start ts_end s info d Hp Hd eq_refl).
    rewrite call_trace_func_cases.
    change (log (with_info s (accumulated info id d ts_start ts_end))) with (log s).
    rewrite Hf, Hn, Ha, Hres. reflexivity.
  - discriminate.
Qed.

(** *** C10: the duration is accumulated before the observer runs *)

(** C10: with both clock reads successful, [hpy_trace_on_exit] is the
    observer block run on the state in which [durations[id]] already holds
    the new total; so when the observer fails and the call ends in
    [HPy_FatalError], and however else the call ends, [durations[id]] is the
    old total updated by [update_duration] with the two timestamps. *)
Theorem on_exit_accumulates_before_observer id r0 r1 ts_start ts_end s info d :
  _private (tctx s) = Some info ->
  durations info !! id = Some d ->
  r0 = 0 -> r1 = 0 ->
  hpy_trace_on_exit names id r0 r1 ts_start ts_end s =
    call_trace_func names (uctx info) (on_exit_func info) id on_exit_msg
      (with_info s (accumulated info id d ts_start ts_end))
  /\ duration_at (hpy_trace_on_exit names id r0 r1 ts_start ts_end s) id
     = Some (update_duration d ts_start ts_end)
  /\ (HPy_IsNull (on_exit_func info) = false ->
      HPy_IsNull (name_handle names id (log s)) = false ->
      HPy_IsNull (args_handle names (uctx info) id (log s)) = false ->
      HPy_IsNull (observer_result names (uctx info) (on_exit_func info) id (log s)) = true ->
      exists s',
        hpy_trace_on_exit names id r0 r1 ts_start ts_end s = Fatal on_exit_msg s'
        /\ _private (tctx s') = Some (accumulated info id d ts_start ts_end)
        /\ (info' ← _private (tctx s'); durations info' !! id)
           = Some (update_duration d ts_start ts_end)).
Proof.
  intros Hp Hd -> ->.
  pose proof (on_exit_steps id 0 0 ts_start ts_end s info d Hp Hd eq_refl) as Hsteps.
  assert (Hlook : durations (accumulated info id d ts_start ts_end) !! id
                  = Some (update_duration d ts_start ts_end)).
  { unfold accumulated, set_durations. cbn.
    apply list_lookup_insert_eq. by eapply lookup_lt_Some. }
  split; [exact Hsteps|]. rewrite Hsteps. split.
  - destruct (call_trace_func_tctx names (uctx info) (on_exit_func info) id
                on_exit_msg (with_info s (accumulated info id d ts_start ts_end)))
      as (s' & Hfin & Ht).
    unfold duration_at. rewrite Hfin. cbn. rewrite Ht. cbn. exact Hlook.
  - intros Hf Hn Ha Hres. rewrite call_trace_func_cases.
    change (log (with_info s (accumulated info id d ts_start ts_end))) with (log s).
    rewrite Hf, Hn, Ha, Hres. eexists. split; [reflexivity|].
    split; [reflexivity|]. cbn. exact Hlook.
Qed.

End Hooks.

(** ** Initialization and the call counters *)

Section Lifecycle.

Context `{UnderlyingContext}.
Variable names : nat -> string.
Variable nfunc : nat.

(** A successful first initialization installs the zeroed record. *)
Lemma init_installs u s s0 :
  _private (tctx s) = None ->
  hpy_trace_ctx_init nfunc u s = Returned 0 s0 ->
  exists freq, _private (tctx s0) = Some (trace_ctx_init_info nfunc freq u).
Proof.
  unfold hpy_trace_ctx_init. intros -> Hinit.
  destruct (malloc_succeeds (log s)); cbn in Hinit.
  - injection Hinit as <-. eexists. reflexivity.
  - discriminate.
Qed.

(** *** C5: initialization is idempotent *)


(** *** C8: allocation failure *)

(** C8: when the trace record cannot be allocated, [hpy_trace_ctx_init]
    reports [HPyErr_NoMemory] on the underlying context and returns -1; the
    trace context is untouched, so its [_private] slot is still [NULL]. *)
Theorem init_out_of_memory u s :
  _private (tctx s) = None ->
  malloc_succeeds (log s) = false ->
  hpy_trace_ctx_init nfunc u s
    = Returned (-1) (log_more s [Malloc false; OnCtx u Err_NoMemory])
  /\ _private (tctx (log_more s [Malloc false; OnCtx u Err_NoMemory])) = None.
Proof.
  intros Hp Hmem. split; [|exact Hp].
  unfold hpy_trace_ctx_init, HPyErr_NoMemory, emit, log_more, mbind, M_bind,
    mret, M_ret.
  rewrite Hp, Hmem. cbn. by rewrite <- app_assoc.
Qed.

(** *** C4: the call counters *)

Lemma on_enter_no_observer o s info c :
  _private (tctx s) = Some info ->
  call_counts info !! o = Some c ->
  HPy_IsNull (on_enter_func info) = true ->
  hpy_trace_on_enter names o s
    = Returned (counted info o c) (with_info s (counted info o c)).
Proof.
  intros Hp Hc Hnull. rewrite (on_enter_steps names o s info c Hp Hc).
  unfold mbind, M_bind. rewrite call_trace_func_cases, Hnull. reflexivity.
Qed.

Lemma repeat_on_enter_no_observer o n : forall s info k,
  _private (tctx s) = Some info ->
  HPy_IsNull (on_enter_func info) = true ->
  call_counts info !! o = Some k ->
  0 <= k -> k + Z.of_nat n < UINT64_MOD ->
  exists s' info',
    repeat_call n (hpy_trace_on_enter names o) s = Returned tt s'
    /\ _private (tctx s') = Some info'
    /\ call_counts info' = <[o := k + Z.of_nat n]> (call_counts info).
Proof.
  induction n as [|n IH]; intros s info k Hp Hnull Hc Hk Hbound.
  - exists s, info. cbn. repeat split; [exact Hp|].
    rewrite Z.add_0_r. symmetry. by apply list_insert_id.
  - cbn [repeat_call]. unfold mbind at 1, M_bind at 1.
    rewrite (on_enter_no_observer o s info k Hp Hc Hnull).
    assert (Hlen : (o < length (call_counts info))%nat) by by eapply lookup_lt_Some.
    assert (Hw : wrap_uint64 (k + 1) = k + 1) by (apply wrap_uint64_small; lia).
    destruct (IH (with_info s (counted info o k)) (counted info o k) (k + 1))
      as (s' & info' & Hrun & Hp' & Hcounts).
    + reflexivity.
    + exact Hnull.
    + unfold counted, set_call_counts. cbn. rewrite Hw.
      by apply list_lookup_insert_eq.
    + lia.
    + lia.
    + exists s', info'. repeat split; [exact Hrun | exact Hp' |].
      rewrite Hcounts. unfold counted, set_call_counts. cbn.
      rewrite list_insert_insert_eq. f_equal. lia.
Qed.

Lemma counter_after_calls u s s0 o n j :
  _private (tctx s) = None ->
  hpy_trace_ctx_init nfunc u s = Returned 0 s0 ->
  (o < nfunc)%nat -> (j < nfunc)%nat ->
  Z.of_nat n < UINT64_MOD ->
  counter_at (repeat_call n (hpy_trace_on_enter names o) s0) j
    = Some (if decide (j = o) then Z.of_nat n else 0).
Proof.
  intros Hp Hinit Ho Hj Hn.
  destruct (init_installs u s s0 Hp Hinit) as [freq Hp0].
  destruct (repeat_on_enter_no_observer o n s0 _ 0 Hp0 eq_refl) as (s' & info' & Hrun & Hp' & Hc).
  - cbn. by apply lookup_replicate_2.
  - lia.
  - lia.
  - rewrite Hrun. unfold counter_at. cbn. rewrite Hp'. cbn. rewrite Hc. cbn.
    rewrite Z.add_0_l. case_decide as Hjo.
    + subst j. apply list_lookup_insert_eq. by rewrite length_replicate.
    + rewrite list_lookup_insert_ne by done. by apply lookup_replicate_2.
Qed.

(** C4: after a successful first initialization and [N] calls of
    [hpy_trace_on_enter] for a valid operation [o], all [N] calls have
    returned and [call_counts[o]] is [N]; from one call to the next no
    counter of the catalog gets smaller.  [N] is within the range of the
    64-bit counter.  Moreover a single call, from any state of the record,
    with or without observers and however it ends, decreases no counter, as
    long as the counter it increments is below its maximum. *)
Theorem on_enter_counts_calls u s s0 o N :
  _private (tctx s) = None ->
  hpy_trace_ctx_init nfunc u s = Returned 0 s0 ->
  (o < nfunc)%nat ->
  Z.of_nat N < UINT64_MOD ->
  (exists sN, repeat_call N (hpy_trace_on_enter names o) s0 = Returned tt sN)
  /\ counter_at (repeat_call N (hpy_trace_on_enter names o) s0) o = Some (Z.of_nat N)
  /\ (forall k j, (k < N)%nat -> (j < nfunc)%nat ->
        exists c c',
          counter_at (repeat_call k (hpy_trace_on_enter names o) s0) j = Some c
          /\ counter_at (repeat_call (S k) (hpy_trace_on_enter names o) s0) j = Some c'
          /\ c <= c')
  /\ (forall s1 info1 c j cj,
        _private (tctx s1) = Some info1 ->
        call_counts info1 !! o = Some c -> 0 <= c -> c + 1 < UINT64_MOD ->
        call_counts info1 !! j = Some cj ->
        exists cj', counter_at (hpy_trace_on_enter names o s1) j = Some cj'
                    /\ cj <= cj').
Proof.
  intros Hp Hinit Ho HN. split; [|split; [|split]]; cycle 3.
  { intros s1 info1 c j cj Hp1 Hc Hc0 Hcmax Hj.
    destruct (on_enter_increments names o s1 info1 c Hp1 Hc) as (s' & Hfin & Hp').
    unfold counter_at. rewrite Hfin. cbn. rewrite Hp'. cbn.
    assert (Hw : wrap_uint64 (c + 1) = c + 1) by (apply wrap_uint64_small; lia).
    rewrite Hw. destruct (decide (o = j)) as [<- | Hne].
    - exists (c + 1). split; [|assert (cj = c) by congruence; lia].
      apply list_lookup_insert_eq. by eapply lookup_lt_Some.
    - exists cj. split; [|lia]. by rewrite list_lookup_insert_ne. }
  - destruct (init_installs u s s0 Hp Hinit) as [freq Hp0].
    destruct (repeat_on_enter_no_observer o N s0 _ 0 Hp0 eq_refl)
      as (s' & info' & Hrun & _); [by apply lookup_replicate_2 | lia | lia |].
    by exists s'.
  - rewrite (counter_after_calls u s s0 o N o Hp Hinit Ho Ho HN).
    by rewrite decide_True.
  - intros k j Hk Hj.
    rewrite (counter_after_calls u s s0 o k j Hp Hinit Ho Hj) by lia.
    rewrite (counter_after_calls u s s0 o (S k) j Hp Hinit Ho Hj) by lia.
    eexists. eexists. split; [reflexivity|]. split; [reflexivity|].
    case_decide; lia.
Qed.

End Lifecycle.

(** ** Release of the argument handles *)

Section Release.

Context `{UnderlyingContext}.
Variable names : nat -> string.

(** When the observer is invoked, whether it returns or fails, the name
    string and the tuple are both closed by the time the block ends. *)
Lemma observer_events_release u func id w tail :
  HPy_IsNull (name_handle names id w) = false ->
  HPy_IsNull (args_handle names u id w) = false ->
  tail = [] \/ (exists msg, tail = [OnCtx u (FatalError msg)]) ->
  argument_handles_open [] (observer_events names u func id w ++ tail) = [].
Proof.
  intros Hn Ha Htail. unfold observer_events, name_event, args_event.
  cbn. rewrite Hn, Ha. cbn. rewrite Z.eqb_refl. cbn. rewrite Z.eqb_refl.
  destruct Htail as [-> | [msg ->]]; reflexivity.
Qed.

(** When the tuple cannot be made, the call ends in [HPy_FatalError] with
    the name string still open: the [goto fail] skips its [HPy_Close]. *)
Lemma tuple_failure_keeps_name_open u id s :
  HPy_IsNull (name_handle names id (log s)) = false ->
  HPy_IsNull (args_handle names u id (log s)) = true ->
  exists evs,
    create_trace_func_args names u id s
      = Fatal create_trace_func_args_msg (log_more s evs)
    /\ argument_handles_open [] evs = [name_handle names id (log s)].
Proof.
  intros Hn Ha. rewrite create_trace_func_args_cases, Hn, Ha.
  eexists. split; [reflexivity|].
  unfold name_event, args_event. cbn. rewrite Hn, Ha. reflexivity.
Qed.

End Release.

(** *** C9: the name string on the path where the tuple cannot be made *)

(** C9 fails on one path: with an on-enter observer installed (handle 42), a
    name string that could be made (handle 1000) and a tuple that could not,
    [hpy_trace_on_enter] ends in [HPy_FatalError] and the name string has not
    been closed. *)
Theorem tuple_failure_leaks_name_string :
  exists s',
    @hpy_trace_on_enter Scenario.tuple_fails Scenario.names 0 (Scenario.hooked 42 0)
      = Fatal create_trace_func_args_msg s'
    /\ log s' = [OnCtx 7%nat (Unicode_FromString "alloc" 1000);
                 OnCtx 7%nat (Tuple_FromArray [1000] HPy_NULL);
                 OnCtx 7%nat (FatalError create_trace_func_args_msg)]
    /\ argument_handles_open [] (log s') = [1000].
Proof. eexists. split; [vm_compute; reflexivity|]. split; reflexivity. Qed.

(** ** The hooks on concrete runs *)

(** The scenario of three operations: two enter/exit pairs for alloc that
    took 100ns and 250ns give counters 2, 0, 0 and 350ns for alloc. *)
Example end_to_end_scenario :
  let enter := @hpy_trace_on_enter Scenario.healthy Scenario.names 0 in
  let exit_ a b := @hpy_trace_on_exit Scenario.healthy Scenario.names 0 0 0 a b in
  let run : M unit :=
    _ ← @hpy_trace_ctx_init Scenario.healthy 3 7%nat;
    _ ← enter; _ ← exit_ (mkTimespec 10 999999950) (mkTimespec 11 50);
    _ ← enter; exit_ (mkTimespec 11 60) (mkTimespec 11 310) in
  (info ← (s ← final_state (run Scenario.blank); _private (tctx s));
   Some (call_counts info, durations info))
  = Some ([2; 0; 0], [mkTimespec 0 350; timespec_zero; timespec_zero]).
Proof. vm_compute. reflexivity. Qed.

(** C3, as stated, fails: when the clock read before operation 0 (alloc)
    failed, the one report made through [HPy_FatalError] is the fixed text
    and does not contain the name of the operation; the name is in the line
    written to standard output only. *)
Lemma clock_fatal_report_omits_operation_name :
  exists s',
    @hpy_trace_on_exit Scenario.healthy Scenario.names 0 (-1) 0
      (mkTimespec 1 0) (mkTimespec 2 0) (Scenario.hooked 0 0)
    = Fatal "could not get monotonic clock123" s'
    /\ fatal_reports (log s') = [(7%nat, "could not get monotonic clock123")]
    /\ Forall (fun report => mentions (Scenario.names 0) report.2 = false)
         (fatal_reports (log s'))
    /\ Forall (fun line => mentions (Scenario.names 0) line = true)
         (printed_lines (log s'))
    /\ length (printed_lines (log s')) = 1%nat.
Proof.
  eexists. split; [vm_compute; reflexivity|].
  cbn [log fatal_reports printed_lines length].
  repeat split; repeat constructor.
Qed.

(** C6, as stated, fails: with an on-enter observer installed (handle 42)
    and a name string that cannot be made, the call for operation 0 ends in
    [HPy_FatalError] and the observer has not been invoked at all. *)
Lemma on_enter_without_observer_invocation :
  HPy_IsNull 42 = false
  /\ exists s',
       @hpy_trace_on_enter Scenario.name_fails Scenario.names 0 (Scenario.hooked 42 0)
       = Fatal "could not create arguments for user trace function" s'
       /\ observer_calls (log s') = []
       /\ log s' = [OnCtx 7%nat (Unicode_FromString "alloc" HPy_NULL);
                    OnCtx 7%nat (FatalError "could not create arguments for user trace function")].
Proof.
  split; [reflexivity|]. eexists. split; [vm_compute; reflexivity|].
  split; reflexivity.
Qed.

Lemma on_exit_clock_failure_is_fatal_witness :
  exists s',
    @hpy_trace_on_exit Scenario.healthy Scenario.names 0 (-1) 0
      (mkTimespec 1 0) (mkTimespec 2 0) (Scenario.hooked 0 0)
    = Fatal "could not get monotonic clock123" s'
    /\ tctx s' = tctx (Scenario.hooked 0 0)
    /\ fatal_reports (log s') = [(7%nat, "could not get monotonic clock123")].
Proof.
  assert (Hfailed : -1 <> 0 \/ 0 <> 0) by (left; lia).
  destruct (@on_exit_clock_failure_is_fatal Scenario.healthy Scenario.names
              0%nat (-1) 0 (mkTimespec 1 0) (mkTimespec 2 0) (Scenario.hooked 0 0) _
              eq_refl (or_intror eq_refl) (or_introl eq_refl) Hfailed)
    as (s' & Hrun & Ht & _ & _ & Hreports & _).
  exists s'. split; [exact Hrun|]. split; [exact Ht | exact Hreports].
Defined.

Lemma on_enter_counts_calls_witness :
  counter_at
    (repeat_call 2 (@hpy_trace_on_enter Scenario.healthy Scenario.names 0)
       (mkState (mkCtx (Some (trace_ctx_init_info 3 Scenario.a_resolution 7%nat))
                       (Some 7%nat))
                [Malloc true; Clock_getres Scenario.a_resolution])) 0
  = Some 2.
Proof.
  refine (proj1 (proj2 (@on_enter_counts_calls Scenario.healthy Scenario.names 3
                          7%nat Scenario.blank _ 0%nat 2%nat eq_refl eq_refl _ _))).
  - lia.
  - vm_compute. reflexivity.
Defined.


Lemma init_out_of_memory_witness :
  @hpy_trace_ctx_init Scenario.no_memory 3 7%nat Scenario.blank
  = Returned (-1) (mkState (mkCtx None None) [Malloc false; OnCtx 7%nat Err_NoMemory]).
Proof.
  exact (proj1 (@init_out_of_memory Scenario.no_memory 3 7%nat Scenario.blank
                  eq_refl eq_refl)).
Defined.

Lemma on_enter_observer_fan_out_witness :
  exists s' info',
    final_state (@hpy_trace_on_enter Scenario.healthy Scenario.names 0
                   (Scenario.hooked 42 0)) = Some s'
    /\ observer_calls (log s') = [CallTupleDict 42 1001 HPy_NULL 1003]
    /\ _private (tctx s') = Some info'
    /\ call_counts info' = [1; 0; 0].
Proof.
  destruct (@on_enter_observer_fan_out Scenario.healthy Scenario.names 0%nat
              (Scenario.hooked 42 0) _ 0 eq_refl eq_refl)
    as ((s1 & info1 & Hfin1 & Hp1 & Hcounts & _) & _ & Hfan & _).
  destruct (Hfan eq_refl eq_refl eq_refl) as (s' & tail & Hfin & _ & Hcalls & _).
  exists s', info1. split; [exact Hfin|]. split; [exact Hcalls|].
  rewrite Hfin in Hfin1. injection Hfin1 as ->.
  split; [exact Hp1 | exact Hcounts].
Defined.

Lemma observer_failure_is_fatal_witness :
  (exists s', @hpy_trace_on_enter Scenario.observer_fails Scenario.names 0
                (Scenario.hooked 42 43) = Fatal on_enter_msg s')
  /\ (exists s', @hpy_trace_on_exit Scenario.observer_fails Scenario.names 0 0 0
                   (mkTimespec 1 0) (mkTimespec 2 0) (Scenario.hooked 42 43)
                 = Fatal on_exit_msg s').
Proof.
  destruct (@observer_failure_is_fatal Scenario.observer_fails Scenario.names
              0%nat 0 0 (mkTimespec 1 0) (mkTimespec 2 0) (Scenario.hooked 42 43)
              _ 0 timespec_zero eq_refl eq_refl eq_refl eq_refl eq_refl eq_refl eq_refl)
    as (Henter & Hexit & _).
  split; eexists; [exact (Henter eq_refl eq_refl) | exact (Hexit eq_refl eq_refl)].
Defined.

Lemma on_exit_accumulates_before_observer_witness :
  exists s',
    @hpy_trace_on_exit Scenario.observer_fails Scenario.names 0 0 0
      (mkTimespec 1 999999999) (mkTimespec 3 1) (Scenario.hooked 0 43)
    = Fatal on_exit_msg s'
    /\ (info' ← _private (tctx s'); durations info' !! 0%nat)
       = Some (mkTimespec 1 2).
Proof.
  destruct (@on_exit_accumulates_before_observer Scenario.observer_fails
              Scenario.names 0%nat 0 0 (mkTimespec 1 999999999) (mkTimespec 3 1)
              (Scenario.hooked 0 43) _ timespec_zero eq_refl eq_refl eq_refl eq_refl)
    as (_ & _ & Hfatal).
  destruct (Hfatal eq_refl eq_refl eq_refl eq_refl) as (s' & Hrun & _ & Hd).
  exists s'. split; [exact Hrun | exact Hd].
Defined.

(** * Further properties of the code *)

(** ** The accumulator: lengths in nanoseconds *)

Section AccumulatorLength.

Implicit Types total start mid : timespec.

Lemma update_duration_ns total start end_ :
  valid_timestamp start -> valid_timestamp end_ -> ts_le start end_ ->
  accumulable total start end_ ->
  to_nanoseconds (update_duration total start end_)
  = to_nanoseconds total + elapsed_ns start end_.
Proof.
  intros Hs He Hle Hacc.
  rewrite (update_duration_exact total start end_ Hs He Hle Hacc).
  destruct (sec_term_exact start end_ Hs He Hle) as [Hsec _].
  destruct (nsec_term_exact start end_ Hs He) as [Hnsec _].
  unfold elapsed_ns, to_nanoseconds. cbn [tv_sec tv_nsec]. rewrite Hsec, Hnsec.
  destruct (borrows start end_); unfold FREQ_NSEC; lia.
Qed.

Lemma ts_le_trans start mid end_ :
  ts_le start mid -> ts_le mid end_ -> ts_le start end_.
Proof. unfold ts_le. lia. Qed.

Lemma accumulable_zero start end_ :
  valid_timestamp start -> valid_timestamp end_ ->
  accumulable timespec_zero start end_.
Proof.
  unfold valid_timestamp, accumulable, fits_long, LONG_MIN, LONG_MAX, FREQ_NSEC.
  cbn [tv_sec tv_nsec timespec_zero]. lia.
Qed.

(** X1: for valid clock readings with [start <= end] and a total with room
    for the contribution, [update_duration] makes the total longer by exactly
    the nanoseconds between the two readings, borrow or not; the coarse
    component never grows by more than the difference of the seconds and the
    fine component grows by less than one full period. *)
Theorem update_duration_adds_elapsed_time total start end_ :
  valid_timestamp start -> valid_timestamp end_ -> ts_le start end_ ->
  accumulable total start end_ ->
  to_nanoseconds (update_duration total start end_)
  = to_nanoseconds total + elapsed_ns start end_
  /\ 0 <= tv_sec (update_duration total start end_) - tv_sec total
       <= tv_sec end_ - tv_sec start
  /\ 0 <= tv_nsec (update_duration total start end_) - tv_nsec total < FREQ_NSEC.
Proof.
  intros Hs He Hle Hacc. split; [by apply update_duration_ns|].
  rewrite (update_duration_exact total start end_ Hs He Hle Hacc).
  destruct (sec_term_exact start end_ Hs He Hle) as [_ Hsec].
  destruct (nsec_term_exact start end_ Hs He) as [_ Hnsec].
  cbn [tv_sec tv_nsec]. lia.
Qed.

Lemma update_duration_adds_elapsed_time_witness :
  to_nanoseconds (update_duration (mkTimespec 3 10) (mkTimespec 0 5) (mkTimespec 1 3))
  = to_nanoseconds (mkTimespec 3 10) + elapsed_ns (mkTimespec 0 5) (mkTimespec 1 3).
Proof.
  apply (update_duration_adds_elapsed_time (mkTimespec 3 10) (mkTimespec 0 5) (mkTimespec 1 3));
    unfold valid_timestamp, ts_le, accumulable, fits_long, LONG_MIN, LONG_MAX, FREQ_NSEC;
    cbn [tv_sec tv_nsec]; lia.
Defined.

(** X2: measured from a zeroed total, the elapsed time between two valid
    readings with [start <= end] comes out normalized: the coarse component is
    the quotient and the fine component the remainder of the nanoseconds
    between the readings by the full period. *)
Theorem update_duration_from_zero_is_normalized start end_ :
  valid_timestamp start -> valid_timestamp end_ -> ts_le start end_ ->
  update_duration timespec_zero start end_
  = mkTimespec (elapsed_ns start end_ / FREQ_NSEC) (elapsed_ns start end_ mod FREQ_NSEC).
Proof.
  intros Hs He Hle.
  pose proof (accumulable_zero start end_ Hs He) as Hacc.
  pose proof (update_duration_ns timespec_zero start end_ Hs He Hle Hacc) as Hns.
  rewrite (update_duration_exact timespec_zero start end_ Hs He Hle Hacc) in *.
  destruct (sec_term_exact start end_ Hs He Hle) as [_ Hsec].
  destruct (nsec_term_exact start end_ Hs He) as [_ Hnsec].
  unfold to_nanoseconds in Hns at 1 2. cbn [tv_sec tv_nsec timespec_zero] in *.
  assert (Hdelta : elapsed_ns start end_
                   = FREQ_NSEC * eval (sec_term start end_) + eval (nsec_term start end_))
    by lia.
  rewrite !Z.add_0_l. f_equal.
  - apply (Z.div_unique_pos _ _ _ (eval (nsec_term start end_))); lia.
  - apply (Z.mod_unique_pos _ _ (eval (sec_term start end_))); lia.
Qed.

Lemma update_duration_from_zero_is_normalized_witness :
  update_duration timespec_zero (mkTimespec 4 999999999) (mkTimespec 7 1)
  = mkTimespec 2 2.
Proof.
  apply (update_duration_from_zero_is_normalized (mkTimespec 4 999999999) (mkTimespec 7 1));
    unfold valid_timestamp, ts_le, LONG_MAX, FREQ_NSEC; cbn [tv_sec tv_nsec]; lia.
Defined.

(** X3: accumulating an interval in two pieces, from [start] to a reading
    [mid] in between and from [mid] to [end], gives a total of the same length
    in nanoseconds as accumulating it in one piece. *)
Theorem update_duration_split_interval total start mid end_ :
  valid_timestamp start -> valid_timestamp mid -> valid_timestamp end_ ->
  ts_le start mid -> ts_le mid end_ ->
  accumulable total start end_ ->
  tv_nsec total + 2 * FREQ_NSEC <= LONG_MAX ->
  to_nanoseconds (update_duration (update_duration total start mid) mid end_)
  = to_nanoseconds (update_duration total start end_).
Proof.
  intros Hs Hm He Hsm Hme Hacc Hroom.
  pose proof (ts_le_trans start mid end_ Hsm Hme) as Hse.
  assert (Hacc1 : accumulable total start mid).
  { destruct Hacc as (? & ? & ? & ?).
    unfold accumulable, fits_long, LONG_MIN, LONG_MAX, ts_le in *. lia. }
  destruct (sec_term_exact start mid Hs Hm Hsm) as [_ Hsec].
  destruct (nsec_term_exact start mid Hs Hm) as [_ Hnsec].
  assert (Hacc2 : accumulable (update_duration total start mid) mid end_).
  { rewrite (update_duration_exact total start mid Hs Hm Hsm Hacc1).
    destruct Hacc as (? & ? & ? & ?).
    unfold accumulable, fits_long, LONG_MIN, LONG_MAX, FREQ_NSEC, ts_le in *.
    cbn [tv_sec tv_nsec]. lia. }
  rewrite (update_duration_ns _ mid end_ Hm He Hme Hacc2).
  rewrite (update_duration_ns _ start mid Hs Hm Hsm Hacc1).
  rewrite (update_duration_ns _ start end_ Hs He Hse Hacc).
  unfold elapsed_ns. lia.
Qed.

Lemma update_duration_split_interval_witness :
  to_nanoseconds (update_duration (update_duration timespec_zero (mkTimespec 1 7) (mkTimespec 2 3))
                    (mkTimespec 2 3) (mkTimespec 2 9))
  = to_nanoseconds (update_duration timespec_zero (mkTimespec 1 7) (mkTimespec 2 9)).
Proof.
  apply (update_duration_split_interval timespec_zero (mkTimespec 1 7) (mkTimespec 2 3) (mkTimespec 2 9));
    unfold valid_timestamp, ts_le, accumulable, fits_long, LONG_MIN, LONG_MAX, FREQ_NSEC;
    cbn [tv_sec tv_nsec timespec_zero]; lia.
Defined.

(** X4: on a non-negative running total with room for the contribution, the
    three assertions of [update_duration] pass for valid readings with
    [start <= end], and the new total is again non-negative in both
    components, so the next call starts from a total of the same kind. *)
Theorem update_duration_keeps_running_total total start end_ :
  valid_timestamp start -> valid_timestamp end_ -> ts_le start end_ ->
  accumulable total start end_ ->
  0 <= tv_sec total -> 0 <= tv_nsec total ->
  update_duration_asserts total start end_ = true
  /\ 0 <= tv_sec (update_duration total start end_) <= LONG_MAX
  /\ 0 <= tv_nsec (update_duration total start end_) <= LONG_MAX.
Proof.
  intros Hs He Hle Hacc H0s H0n.
  split; [by apply update_duration_asserts_hold|].
  rewrite (update_duration_exact total start end_ Hs He Hle Hacc).
  destruct (sec_term_exact start end_ Hs He Hle) as [_ Hsec].
  destruct (nsec_term_exact start end_ Hs He) as [_ Hnsec].
  destruct Hacc as (_ & _ & Hsmax & Hnmax). cbn [tv_sec tv_nsec]. lia.
Qed.

Lemma update_duration_keeps_running_total_witness :
  update_duration_asserts (mkTimespec 3 10) (mkTimespec 0 5) (mkTimespec 1 3) = true.
Proof.
  apply (update_duration_keeps_running_total (mkTimespec 3 10) (mkTimespec 0 5) (mkTimespec 1 3));
    unfold valid_timestamp, ts_le, accumulable, fits_long, LONG_MIN, LONG_MAX, FREQ_NSEC;
    cbn [tv_sec tv_nsec]; lia.
Defined.

End AccumulatorLength.

(** ** The clock test *)

(** X5: on the return values of [clock_gettime], [CLOCK_FAILED] holds exactly
    when at least one of the two reads failed; two successful reads pass. *)
Theorem CLOCK_FAILED_iff_a_read_failed (r0 r1 : Z) :
  is_clock_status r0 -> is_clock_status r1 ->
  (CLOCK_FAILED r0 r1 = true <-> r0 = -1 \/ r1 = -1)
  /\ (CLOCK_FAILED r0 r1 = false <-> r0 = 0 /\ r1 = 0).
Proof.
  intros [-> | ->] [-> | ->]; cbn; split; split;
    try (intros; discriminate); try (intros; reflexivity); try lia.
Qed.

Lemma CLOCK_FAILED_iff_a_read_failed_witness :
  CLOCK_FAILED 0 (-1) = true <-> 0 = -1 \/ -1 = -1.
Proof.
  apply (CLOCK_FAILED_iff_a_read_failed 0 (-1));
    [left | right]; reflexivity.
Defined.

(** X6: [CLOCK_FAILED] adds the two statuses; for [int] statuses whose sum
    does not overflow it passes exactly when the second is the negative of
    the first, so two non-zero statuses that cancel are taken for success. *)
Theorem CLOCK_FAILED_passes_iff_cancelling (r0 r1 : Z) :
  - 2 ^ 31 <= r0 + r1 < 2 ^ 31 ->
  CLOCK_FAILED r0 r1 = false <-> r1 = - r0.
Proof.
  intros Hsum. unfold CLOCK_FAILED. rewrite (wrap_int_small _ Hsum).
  rewrite negb_false_iff, Z.eqb_eq. lia.
Qed.

Lemma CLOCK_FAILED_passes_iff_cancelling_witness :
  CLOCK_FAILED 5 (-5) = false <-> -5 = - 5.
Proof.
  apply (CLOCK_FAILED_passes_iff_cancelling 5 (-5)). lia.
Defined.

(** ** The Windows accumulator *)

Lemma wrap_long_add_r x y : wrap_long (x + wrap_long y) = wrap_long (x + y).
Proof.
  unfold wrap_long. f_equal.
  replace (x + ((y + 2 ^ 63) mod 2 ^ 64 - 2 ^ 63) + 2 ^ 63)
    with (x + (y + 2 ^ 63) mod 2 ^ 64) by lia.
  rewrite Z.add_mod_idemp_r by lia. f_equal. lia.
Qed.

Lemma wrap_long_add_l x y : wrap_long (wrap_long x + y) = wrap_long (x + y).
Proof. rewrite (Z.add_comm (wrap_long x)), wrap_long_add_r. f_equal. lia. Qed.

(** X7: for tick counts [a <= b <= c] and a non-negative total with room for
    [c - a], accumulating from [a] to [b] and then from [b] to [c] leaves the
    same total as accumulating from [a] to [c], namely the old total plus
    [c - a], and the assertion passes after each of the calls. *)
Theorem quadpart_accumulation_telescopes (res a b c : Z) :
  fits_long a -> fits_long b -> fits_long c ->
  a <= b -> b <= c ->
  0 <= res -> res + (c - a) <= LONG_MAX ->
  Win32.update_duration (Win32.update_duration res a b) b c
  = Win32.update_duration res a c
  /\ Win32.update_duration res a c = res + (c - a)
  /\ Win32.update_duration_asserts res a b = true
  /\ Win32.update_duration_asserts (Win32.update_duration res a b) b c = true
  /\ Win32.update_duration_asserts res a c = true.
Proof.
  intros Ha Hb Hc Hab Hbc Hres Hroom.
  assert (Hexact : forall r x y, fits_long x -> fits_long y -> x <= y ->
            0 <= r -> r + (y - x) <= LONG_MAX ->
            Win32.update_duration r x y = r + (y - x)).
  { intros r x y Hx Hy Hxy Hr Hmax. unfold Win32.update_duration.
    rewrite wrap_long_add_r. apply wrap_long_fits.
    unfold fits_long, LONG_MIN, LONG_MAX in *. lia. }
  unfold Win32.update_duration_asserts.
  rewrite (Hexact res a b), (Hexact (res + (b - a)) b c), (Hexact res a c)
    by (try assumption; lia).
  repeat split; try lia; apply Z.leb_le; lia.
Qed.

Lemma quadpart_accumulation_telescopes_witness :
  Win32.update_duration (Win32.update_duration 10 100 250) 250 400
  = Win32.update_duration 10 100 400.
Proof.
  apply (quadpart_accumulation_telescopes 10 100 250 400);
    unfold fits_long, LONG_MIN, LONG_MAX; lia.
Defined.

(** X8: for tick counts with [start <= end] and a non-negative total with
    room for the difference, the Windows [update_duration] adds exactly
    [end - start], the total does not decrease, and its assertion passes. *)
Theorem quadpart_accumulation_monotone (res start end_ : Z) :
  fits_long start -> fits_long end_ -> start <= end_ ->
  0 <= res -> res + (end_ - start) <= LONG_MAX ->
  Win32.update_duration res start end_ = res + (end_ - start)
  /\ res <= Win32.update_duration res start end_
  /\ Win32.update_duration_asserts res start end_ = true.
Proof.
  intros Hs He Hle Hres Hroom.
  assert (Heq : Win32.update_duration res start end_ = res + (end_ - start)).
  { unfold Win32.update_duration. rewrite wrap_long_add_r.
    apply wrap_long_fits. unfold fits_long, LONG_MIN, LONG_MAX in *. lia. }
  unfold Win32.update_duration_asserts. rewrite Heq.
  repeat split; [lia|]. apply Z.leb_le. lia.
Qed.

Lemma quadpart_accumulation_monotone_witness :
  Win32.update_duration 10 100 250 = 10 + (250 - 100).
Proof.
  apply (quadpart_accumulation_monotone 10 100 250);
    unfold fits_long, LONG_MIN, LONG_MAX; lia.
Defined.

(** ** The hooks: what they change, how they end, what they close *)

Section HookBehaviour.

Context `{UnderlyingContext}.
Variable names : nat -> string.

Implicit Types (s : state) (info : HPyTraceInfo) (id : nat).

Lemma last_log_more s evs e : last (log (log_more s (evs ++ [e]))) = Some e.
Proof. unfold log_more. cbn. by rewrite app_assoc, last_snoc. Qed.

Lemma on_exit_clock_failed_steps id r0 r1 ts_start ts_end s info :
  _private (tctx s) = Some info ->
  CLOCK_FAILED r0 r1 = true ->
  hpy_trace_on_exit names id r0 r1 ts_start ts_end s =
    Fatal clock_msg
      (log_more s ([Printf (clock_failed_line names id); Fflush_stdout]
                   ++ [OnCtx (uctx info) (FatalError clock_msg)])).
Proof.
  intros Hp Hclk.
  unfold hpy_trace_on_exit, get_info, HPy_FatalError, emit, mbind, M_bind, log_more.
  rewrite Hp, Hclk. cbn. by rewrite <- !app_assoc.
Qed.

(** The observer block when it ends in [HPy_FatalError]. *)
Lemma call_trace_func_fatal u func id msg s m s' :
  call_trace_func names u func id msg s = Fatal m s' ->
  HPy_IsNull func = false
  /\ (m = create_trace_func_args_msg \/ m = msg)
  /\ tctx s' = tctx s
  /\ last (log s') = Some (OnCtx u (FatalError m)).
Proof.
  rewrite call_trace_func_cases.
  destruct (HPy_IsNull func); [discriminate|].
  destruct (HPy_IsNull (name_handle _ _ _)).
  { intros [= <- <-]. repeat split; [by left|].
    apply (last_log_more s [_]). }
  destruct (HPy_IsNull (args_handle _ _ _ _)).
  { intros [= <- <-]. repeat split; [by left|].
    apply (last_log_more s [_; _]). }
  destruct (HPy_IsNull (observer_result _ _ _ _ _)); [|discriminate].
  intros [= <- <-]. repeat split; [by right|].
  apply (last_log_more s [_; _; _; _; _]).
Qed.

(** The observer block when it returns. *)
Lemma call_trace_func_returned u func id msg s s' :
  call_trace_func names u func id msg s = Returned tt s' ->
  (HPy_IsNull func = true /\ s' = s)
  \/ (HPy_IsNull func = false
      /\ HPy_IsNull (name_handle names id (log s)) = false
      /\ HPy_IsNull (args_handle names u id (log s)) = false
      /\ HPy_IsNull (observer_result names u func id (log s)) = false
      /\ s' = log_more s (observer_events names u func id (log s))).
Proof.
  rewrite call_trace_func_cases.
  destruct (HPy_IsNull func); [intros [= <-]; by left|].
  destruct (HPy_IsNull (name_handle _ _ _)); [discriminate|].
  destruct (HPy_IsNull (args_handle _ _ _ _)); [discriminate|].
  destruct (HPy_IsNull (observer_result _ _ _ _ _)); [discriminate|].
  intros [= <-]. by right.
Qed.

(** Where [hpy_trace_on_exit] leaves the record, for any statuses. *)
Lemma on_exit_final_record id r0 r1 ts_start ts_end s info d :
  _private (tctx s) = Some info ->
  durations info !! id = Some d ->
  exists s',
    final_state (hpy_trace_on_exit names id r0 r1 ts_start ts_end s) = Some s'
    /\ ctx_fields (tctx s') = ctx_fields (tctx s)
    /\ _private (tctx s')
       = Some (if CLOCK_FAILED r0 r1 then info
               else accumulated info id d ts_start ts_end).
Proof.
  intros Hp Hd. destruct (CLOCK_FAILED r0 r1) eqn:Hclk.
  - rewrite (on_exit_clock_failed_steps id r0 r1 ts_start ts_end s info Hp Hclk).
    eexists. split; [reflexivity|]. split; [reflexivity|]. exact Hp.
  - rewrite (on_exit_steps names id r0 r1 ts_start ts_end s info d Hp Hd Hclk).
    destruct (call_trace_func_tctx names (uctx info) (on_exit_func info) id
                on_exit_msg (with_info s (accumulated info id d ts_start ts_end)))
      as (s' & Hfin & Ht).
    exists s'. split; [exact Hfin|]. rewrite Ht. split; reflexivity.
Qed.

(** X9: however they end, each hook changes one cell only.
    [hpy_trace_on_enter] leaves the durations, the hooks and the
    back-reference as they are and changes no counter but [call_counts[id]];
    [hpy_trace_on_exit], for any clock statuses, leaves the counters, the
    hooks and the back-reference as they are and changes no duration but
    [durations[id]].  Neither changes the length of an array. *)
Theorem hooks_change_one_cell id r0 r1 ts_start ts_end s info c d :
  _private (tctx s) = Some info ->
  call_counts info !! id = Some c ->
  durations info !! id = Some d ->
  (exists s' info',
     final_state (hpy_trace_on_enter names id s) = Some s'
     /\ _private (tctx s') = Some info'
     /\ durations info' = durations info
     /\ (on_enter_func info', on_exit_func info', uctx info')
        = (on_enter_func info, on_exit_func info, uctx info)
     /\ length (call_counts info') = length (call_counts info)
     /\ forall j, j <> id -> call_counts info' !! j = call_counts info !! j)
  /\ (exists s' info',
        final_state (hpy_trace_on_exit names id r0 r1 ts_start ts_end s) = Some s'
        /\ _private (tctx s') = Some info'
        /\ call_counts info' = call_counts info
        /\ (on_enter_func info', on_exit_func info', uctx info')
           = (on_enter_func info, on_exit_func info, uctx info)
        /\ length (durations info') = length (durations info)
        /\ forall j, j <> id -> durations info' !! j = durations info !! j).
Proof.
  intros Hp Hc Hd. split.
  - destruct (on_enter_increments names id s info c Hp Hc) as (s' & Hfin & Hp').
    exists s', (counted info id c). repeat split; try done.
    + unfold counted, set_call_counts. cbn. by rewrite length_insert.
    + intros j Hj. unfold counted, set_call_counts. cbn.
      by rewrite list_lookup_insert_ne.
  - destruct (on_exit_final_record id r0 r1 ts_start ts_end s info d Hp Hd)
      as (s' & Hfin & _ & Hp').
    eexists s', _. split; [exact Hfin|]. split; [exact Hp'|].
    destruct (CLOCK_FAILED r0 r1); repeat split; try done.
    + unfold accumulated, set_durations. cbn. by rewrite length_insert.
    + intros j Hj. unfold accumulated, set_durations. cbn.
      by rewrite list_lookup_insert_ne.
Qed.

(** X10: [create_trace_func_args] never returns [HPy_NULL].  When it returns,
    its result is the handle of the tuple, the string and the tuple were made
    in this order from the display name of the operation, the string has
    been closed again, and the tuple is the one argument handle left open for
    the caller. *)
Theorem create_trace_func_args_returns_open_tuple u id s h s' :
  create_trace_func_args names u id s = Returned h s' ->
  HPy_IsNull h = false
  /\ h = args_handle names u id (log s)
  /\ s' = log_more s [OnCtx u (Unicode_FromString (names id) (name_handle names id (log s)));
                      OnCtx u (Tuple_FromArray [name_handle names id (log s)] h);
                      OnCtx u (Close (name_handle names id (log s)))]
  /\ argument_handles_open [] (drop (length (log s)) (log s')) = [h].
Proof.
  rewrite create_trace_func_args_cases.
  destruct (HPy_IsNull (name_handle _ _ _)) eqn:Hn; [discriminate|].
  destruct (HPy_IsNull (args_handle _ _ _ _)) eqn:Ha; [discriminate|].
  intros [= <- <-]. repeat split; [exact Ha|].
  unfold log_more. cbn [log]. rewrite drop_app_length.
  unfold name_event, args_event. cbn. rewrite Hn, Ha. cbn.
  by rewrite Z.eqb_refl.
Qed.

(** X11: when and how a hook ends in [HPy_FatalError].
    [hpy_trace_on_enter] does so exactly when an on-enter observer is
    installed and the name string or the tuple cannot be made (with the
    message of the argument construction) or the observer gives back
    [HPy_NULL] (with the on-enter message).  [hpy_trace_on_exit] does so
    exactly when the clock test fails (with the clock message) or, the clock
    test passed, an on-exit observer is installed and the argument cannot be
    made or the observer gives back [HPy_NULL] (with the on-exit message).
    In every other case the hook returns.  The last event of a fatal ending is
    that report on the underlying context of the record. *)
Theorem hooks_fatal_endings id r0 r1 ts_start ts_end s info c d :
  _private (tctx s) = Some info ->
  call_counts info !! id = Some c ->
  durations info !! id = Some d ->
  let u := uctx info in
  let cannot_build :=
    HPy_IsNull (name_handle names id (log s))
    || HPy_IsNull (args_handle names u id (log s)) in
  fatal_message (hpy_trace_on_enter names id s)
  = (if HPy_IsNull (on_enter_func info) then None
     else if cannot_build
          then Some "could not create arguments for user trace function"
     else if HPy_IsNull (observer_result names u (on_enter_func info) id (log s))
          then Some "error when executing on-enter trace function"
     else None)
  /\ fatal_message (hpy_trace_on_exit names id r0 r1 ts_start ts_end s)
     = (if CLOCK_FAILED r0 r1 then Some "could not get monotonic clock123"
        else if HPy_IsNull (on_exit_func info) then None
        else if cannot_build
             then Some "could not create arguments for user trace function"
        else if HPy_IsNull (observer_result names u (on_exit_func info) id (log s))
             then Some "error when executing on-exit trace function"
        else None)
  /\ (fatal_message (hpy_trace_on_enter names id s) = None ->
      exists r s', hpy_trace_on_enter names id s = Returned r s')
  /\ (fatal_message (hpy_trace_on_exit names id r0 r1 ts_start ts_end s) = None ->
      exists s', hpy_trace_on_exit names id r0 r1 ts_start ts_end s = Returned tt s')
  /\ (forall msg s',
        hpy_trace_on_enter names id s = Fatal msg s' ->
        last (log s') = Some (OnCtx u (FatalError msg)))
  /\ (forall msg s',
        hpy_trace_on_exit names id r0 r1 ts_start ts_end s = Fatal msg s' ->
        last (log s') = Some (OnCtx u (FatalError msg))).
Proof.
  intros Hp Hc Hd u cannot_build. subst u cannot_build.
  assert (Henter : hpy_trace_on_enter names id s =
    match call_trace_func names (uctx info) (on_enter_func info) id on_enter_msg
            (with_info s (counted info id c)) with
    | Returned _ s1 => Returned (counted info id c) s1
    | Fatal m s1 => Fatal m s1
    | Undefined => Undefined
    end).
  { rewrite (on_enter_steps names id s info c Hp Hc). unfold mbind, M_bind.
    destruct (call_trace_func_tctx names (uctx info) (on_enter_func info) id
                on_enter_msg (with_info s (counted info id c))) as (s2 & Hfin & Ht).
    destruct (call_trace_func _ _ _ _ _ _) as [[] s1 | m s1 |]; try reflexivity.
    injection Hfin as <-. unfold get_info. rewrite Ht. reflexivity. }
  assert (Hexit : hpy_trace_on_exit names id r0 r1 ts_start ts_end s =
    if CLOCK_FAILED r0 r1
    then Fatal clock_msg
           (log_more s ([Printf (clock_failed_line names id); Fflush_stdout]
                        ++ [OnCtx (uctx info) (FatalError clock_msg)]))
    else call_trace_func names (uctx info) (on_exit_func info) id on_exit_msg
           (with_info s (accumulated info id d ts_start ts_end))).
  { destruct (CLOCK_FAILED r0 r1) eqn:Hclk.
    - exact (on_exit_clock_failed_steps id r0 r1 ts_start ts_end s info Hp Hclk).
    - exact (on_exit_steps names id r0 r1 ts_start ts_end s info d Hp Hd Hclk). }
  split; [|split; [|split; [|split; [|split]]]].
  - clear Hexit. rewrite Henter, call_trace_func_cases.
    change (log (with_info s (counted info id c))) with (log s).
    destruct (HPy_IsNull (on_enter_func info)); [reflexivity|].
    destruct (HPy_IsNull (name_handle _ _ _)); [reflexivity|].
    destruct (HPy_IsNull (args_handle _ _ _ _)); [reflexivity|].
    destruct (HPy_IsNull (observer_result _ _ _ _ _)); reflexivity.
  - clear Henter. rewrite Hexit. destruct (CLOCK_FAILED r0 r1); [reflexivity|].
    rewrite call_trace_func_cases.
    change (log (with_info s (accumulated info id d ts_start ts_end))) with (log s).
    destruct (HPy_IsNull (on_exit_func info)); [reflexivity|].
    destruct (HPy_IsNull (name_handle _ _ _)); [reflexivity|].
    destruct (HPy_IsNull (args_handle _ _ _ _)); [reflexivity|].
    destruct (HPy_IsNull (observer_result _ _ _ _ _)); reflexivity.
  - clear Hexit. rewrite Henter.
    destruct (call_trace_func_tctx names (uctx info) (on_enter_func info) id
                on_enter_msg (with_info s (counted info id c))) as (s2 & Hfin & _).
    destruct (call_trace_func _ _ _ _ _ _) as [[] s1 | m s1 |];
      [intros _; eexists; eexists; reflexivity | discriminate | discriminate].
  - clear Henter. rewrite Hexit. destruct (CLOCK_FAILED r0 r1); [discriminate|].
    destruct (call_trace_func_tctx names (uctx info) (on_exit_func info) id
                on_exit_msg (with_info s (accumulated info id d ts_start ts_end)))
      as (s2 & Hfin & _).
    destruct (call_trace_func _ _ _ _ _ _) as [[] s1 | m s1 |];
      [intros _; eexists; reflexivity | discriminate | discriminate].
  - clear Hexit. intros msg s'. rewrite Henter.
    destruct (call_trace_func _ _ _ _ _ _) as [[] s1 | m s1 |] eqn:Hrun;
      [discriminate | | discriminate].
    intros [= <- <-].
    by destruct (call_trace_func_fatal _ _ _ _ _ _ _ Hrun) as (_ & _ & _ & Hlast).
  - clear Henter. intros msg s'. rewrite Hexit. destruct (CLOCK_FAILED r0 r1).
    + intros [= <- <-]. apply (last_log_more s [_; _]).
    + intros Hrun.
      by destruct (call_trace_func_fatal _ _ _ _ _ _ _ Hrun) as (_ & _ & _ & Hlast).
Qed.

(** X12: when a hook with its observer installed returns, the history grew
    by exactly five events: the string, the tuple, the release of the
    string, the one invocation, and the release of the tuple.  All three
    handles involved are not [HPy_NULL], and the only handles closed are the
    string and the tuple: the handle that the observer returned is not given
    to [HPy_Close]. *)
Theorem hooks_leave_observer_result_open id ts_start ts_end s info c d :
  _private (tctx s) = Some info ->
  call_counts info !! id = Some c ->
  durations info !! id = Some d ->
  let u := uctx info in
  let released := [name_handle names id (log s); args_handle names u id (log s)] in
  (forall r s',
     HPy_IsNull (on_enter_func info) = false ->
     hpy_trace_on_enter names id s = Returned r s' ->
     log s' = log s ++ observer_events names u (on_enter_func info) id (log s)
     /\ closed_handles (drop (length (log s)) (log s')) = released
     /\ HPy_IsNull (observer_result names u (on_enter_func info) id (log s)) = false
     /\ Forall (fun h => HPy_IsNull h = false) released)
  /\ (forall s',
        HPy_IsNull (on_exit_func info) = false ->
        hpy_trace_on_exit names id 0 0 ts_start ts_end s = Returned tt s' ->
        log s' = log s ++ observer_events names u (on_exit_func info) id (log s)
        /\ closed_handles (drop (length (log s)) (log s')) = released
        /\ HPy_IsNull (observer_result names u (on_exit_func info) id (log s)) = false
        /\ Forall (fun h => HPy_IsNull h = false) released).
Proof.
  intros Hp Hc Hd u released. subst u released. split.
  - intros r s' Hf. rewrite (on_enter_steps names id s info c Hp Hc).
    unfold mbind, M_bind.
    destruct (call_trace_func _ _ _ _ _ _) as [[] s1 | m s1 |] eqn:Hrun;
      [|discriminate..].
    destruct (call_trace_func_returned _ _ _ _ _ _ Hrun)
      as [[Hnull _] | (_ & Hn & Ha & Hres & ->)]; [congruence|].
    unfold get_info. cbn. intros [= <- <-]. cbn [log log_more with_info] in *.
    rewrite drop_app_length. repeat split; try done.
    by repeat constructor.
  - intros s' Hf.
    rewrite (on_exit_steps names id 0 0 ts_start ts_end s info d Hp Hd eq_refl).
    intros Hrun.
    destruct (call_trace_func_returned _ _ _ _ _ _ Hrun)
      as [[Hnull _] | (_ & Hn & Ha & Hres & ->)]; [congruence|].
    cbn [log log_more with_info] in *.
    rewrite drop_app_length. repeat split; try done.
    by repeat constructor.
Qed.

End HookBehaviour.

(** ** Initialization, shutdown and whole runs *)

Section LifecycleBehaviour.

Context `{UnderlyingContext}.
Variable names : nat -> string.
Variable nfunc : nat.

Implicit Types (s : state) (info : HPyTraceInfo) (id : nat).

(** X14: a failed initialization can be tried again.  After a call that
    failed for lack of memory, a call for which the allocation succeeds
    returns 0 and installs the zeroed record for the context it was given,
    with the resolution of the clock read at that time. *)
Theorem init_retry_after_no_memory u s :
  _private (tctx s) = None ->
  malloc_succeeds (log s) = false ->
  malloc_succeeds (log s ++ [Malloc false; OnCtx u Err_NoMemory]) = true ->
  exists s1 s2 freq,
    hpy_trace_ctx_init nfunc u s = Returned (-1) s1
    /\ hpy_trace_ctx_init nfunc u s1 = Returned 0 s2
    /\ _private (tctx s2) = Some (trace_ctx_init_info nfunc freq u)
    /\ ctx_fields (tctx s2) = Some u
    /\ log s2 = log s ++ [Malloc false; OnCtx u Err_NoMemory;
                          Malloc true; Clock_getres freq].
Proof.
  intros Hp Hfail Hok.
  exists (log_more s [Malloc false; OnCtx u Err_NoMemory]). eexists. eexists.
  split.
  { unfold hpy_trace_ctx_init, HPyErr_NoMemory, emit, log_more, mbind, M_bind,
      mret, M_ret. rewrite Hp, Hfail. cbn. by rewrite <- app_assoc. }
  unfold hpy_trace_ctx_init, log_more. cbn [tctx log]. rewrite Hp, Hok.
  split; [reflexivity|]. cbn. split; [reflexivity|]. split; [reflexivity|].
  by rewrite <- !app_assoc.
Qed.


Lemma on_exit_no_observer id ts_start ts_end s info d :
  _private (tctx s) = Some info ->
  durations info !! id = Some d ->
  HPy_IsNull (on_exit_func info) = true ->
  hpy_trace_on_exit names id 0 0 ts_start ts_end s
    = Returned tt (with_info s (accumulated info id d ts_start ts_end)).
Proof.
  intros Hp Hd Hnull.
  rewrite (on_exit_steps names id 0 0 ts_start ts_end s info d Hp Hd eq_refl).
  rewrite call_trace_func_cases. cbn [on_exit_func accumulated set_durations].
  by rewrite Hnull.
Qed.

(** X16: with no observers installed, a run of the call-site protocol for
    operation [id] over valid pairs of readings returns, makes no call on the
    underlying context, adds the number of pairs to [call_counts[id]], and
    makes [durations[id]] longer by exactly the sum of the elapsed
    nanoseconds; the other counters and durations stay as they are.  The
    counter and the two components of the total have room for the run. *)
Theorem trace_calls_account id (ivs : list (timespec * timespec)) :
  forall s info c d,
  _private (tctx s) = Some info ->
  HPy_IsNull (on_enter_func info) = true ->
  HPy_IsNull (on_exit_func info) = true ->
  call_counts info !! id = Some c ->
  durations info !! id = Some d ->
  Forall valid_interval ivs ->
  0 <= c -> c + Z.of_nat (length ivs) < UINT64_MOD ->
  0 <= tv_sec d -> 0 <= tv_nsec d ->
  tv_sec d + sec_span ivs <= LONG_MAX ->
  tv_nsec d + Z.of_nat (length ivs) * FREQ_NSEC <= LONG_MAX ->
  exists s' info' total,
    trace_calls names id ivs s = Returned tt s'
    /\ log s' = log s
    /\ _private (tctx s') = Some info'
    /\ call_counts info' = <[id := c + Z.of_nat (length ivs)]> (call_counts info)
    /\ durations info' = <[id := total]> (durations info)
    /\ to_nanoseconds total = to_nanoseconds d + total_ns ivs.
Proof.
  induction ivs as [|[a b] ivs IH];
    intros s info c d Hp Hen Hex Hc Hd Hvalid Hc0 Hcmax Hd0s Hd0n Hsec Hnsec.
  - exists s, info, d. cbn. repeat split; [exact Hp | | | lia].
    + rewrite Z.add_0_r. symmetry. by apply list_insert_id.
    + symmetry. by apply list_insert_id.
  - apply Forall_cons in Hvalid as [(Ha & Hb & Hab) Hvalid]. cbn [fst snd] in *.
    cbn [length sec_span total_ns fst snd] in *.
    assert (Hspan : 0 <= sec_span ivs).
    { clear -Hvalid. induction Hvalid as [|[x y] l (_ & _ & Hxy) _ IHl]; cbn; [lia|].
      unfold ts_le in Hxy. cbn in Hxy. lia. }
    assert (Hacc : accumulable d a b).
    { pose proof Hab as Hab'. unfold ts_le in Hab'.
      unfold accumulable, fits_long, LONG_MIN, LONG_MAX, FREQ_NSEC in *. lia. }
    destruct (sec_term_exact a b Ha Hb Hab) as [_ Hsr].
    destruct (nsec_term_exact a b Ha Hb) as [_ Hnr].
    pose proof (update_duration_exact d a b Ha Hb Hab Hacc) as Hexact.
    pose proof (update_duration_ns d a b Ha Hb Hab Hacc) as Hns.
    assert (Hlenc : (id < length (call_counts info))%nat) by by eapply lookup_lt_Some.
    assert (Hlend : (id < length (durations info))%nat) by by eapply lookup_lt_Some.
    assert (Hw : wrap_uint64 (c + 1) = c + 1) by (apply wrap_uint64_small; lia).
    cbn [trace_calls fst snd]. unfold mbind at 1, M_bind at 1.
    rewrite (on_enter_no_observer names id s info c Hp Hc Hen).
    unfold mbind at 1, M_bind at 1.
    rewrite (on_exit_no_observer id a b (with_info s (counted info id c))
               (counted info id c) d eq_refl Hd Hex).
    set (info1 := accumulated (counted info id c) id d a b).
    destruct (IH (with_info (with_info s (counted info id c)) info1) info1
                (c + 1) (update_duration d a b))
      as (s' & info' & total & Hrun & Hlog & Hp' & Hcounts & Hdur & Htotal).
    + reflexivity.
    + exact Hen.
    + exact Hex.
    + subst info1. unfold accumulated, counted, set_durations, set_call_counts. cbn.
      rewrite Hw. by apply list_lookup_insert_eq.
    + subst info1. unfold accumulated, counted, set_durations, set_call_counts. cbn.
      by apply list_lookup_insert_eq.
    + exact Hvalid.
    + lia.
    + lia.
    + rewrite Hexact. cbn. lia.
    + rewrite Hexact. cbn. lia.
    + rewrite Hexact. cbn. lia.
    + rewrite Hexact. cbn. unfold FREQ_NSEC in *. lia.
    + exists s', info', total. split; [exact Hrun|]. split; [exact Hlog|].
      split; [exact Hp'|]. split; [|split].
      * rewrite Hcounts. subst info1.
        unfold accumulated, counted, set_durations, set_call_counts. cbn.
        rewrite list_insert_insert_eq. f_equal. lia.
      * rewrite Hdur. subst info1.
        unfold accumulated, counted, set_durations, set_call_counts. cbn.
        by rewrite list_insert_insert_eq.
      * rewrite Htotal, Hns. lia.
Qed.

(** X17: without an on-enter observer, [n] calls of [hpy_trace_on_enter] for
    operation [o] all return and leave [call_counts[o]] at the old value plus
    [n] modulo [2^64]: the counter wraps around and starts again from 0. *)
Theorem on_enter_counter_is_modular o (n : nat) :
  forall s info c,
  _private (tctx s) = Some info ->
  HPy_IsNull (on_enter_func info) = true ->
  call_counts info !! o = Some c ->
  0 <= c < UINT64_MOD ->
  exists s' info',
    repeat_call n (hpy_trace_on_enter names o) s = Returned tt s'
    /\ _private (tctx s') = Some info'
    /\ call_counts info'
       = <[o := (c + Z.of_nat n) mod UINT64_MOD]> (call_counts info).
Proof.
  induction n as [|n IH]; intros s info c Hp Hnull Hc Hrange.
  - exists s, info. cbn. repeat split; [exact Hp|].
    rewrite Z.add_0_r, Z.mod_small by lia. symmetry. by apply list_insert_id.
  - cbn [repeat_call]. unfold mbind at 1, M_bind at 1.
    rewrite (on_enter_no_observer names o s info c Hp Hc Hnull).
    assert (Hlen : (o < length (call_counts info))%nat) by by eapply lookup_lt_Some.
    destruct (IH (with_info s (counted info o c)) (counted info o c)
                (wrap_uint64 (c + 1)))
      as (s' & info' & Hrun & Hp' & Hcounts).
    + reflexivity.
    + exact Hnull.
    + unfold counted, set_call_counts. cbn. by apply list_lookup_insert_eq.
    + unfold wrap_uint64, UINT64_MOD. apply Z.mod_pos_bound. lia.
    + exists s', info'. repeat split; [exact Hrun | exact Hp' |].
      rewrite Hcounts. unfold counted, set_call_counts, wrap_uint64. cbn.
      rewrite list_insert_insert_eq. f_equal.
      rewrite Z.add_mod_idemp_l by (unfold UINT64_MOD; lia). f_equal. lia.
Qed.

End LifecycleBehaviour.

(** ** The further properties on concrete runs *)

Lemma hooks_change_one_cell_witness :
  exists s' info',
    final_state (@hpy_trace_on_exit Scenario.healthy Scenario.names 1 0 0
                   (mkTimespec 1 0) (mkTimespec 2 0) (Scenario.hooked 0 43)) = Some s'
    /\ _private (tctx s') = Some info'
    /\ call_counts info' = [0; 0; 0].
Proof.
  destruct (@hooks_change_one_cell Scenario.healthy Scenario.names 1%nat 0 0
              (mkTimespec 1 0) (mkTimespec 2 0) (Scenario.hooked 0 43) _ 0
              timespec_zero eq_refl eq_refl eq_refl)
    as (_ & s' & info' & Hfin & Hp & Hcounts & _).
  exists s', info'. split; [exact Hfin|]. split; [exact Hp | exact Hcounts].
Defined.

Lemma create_trace_func_args_returns_open_tuple_witness :
  HPy_IsNull 1001 = false.
Proof.
  refine (proj1 (@create_trace_func_args_returns_open_tuple Scenario.healthy
                   Scenario.names 7%nat 0%nat Scenario.blank 1001
                   (mkState (mkCtx None None)
                      [OnCtx 7%nat (Unicode_FromString "alloc" 1000);
                       OnCtx 7%nat (Tuple_FromArray [1000] 1001);
                       OnCtx 7%nat (Close 1000)]) _)).
  reflexivity.
Defined.

Lemma hooks_fatal_endings_witness :
  fatal_message (@hpy_trace_on_enter Scenario.tuple_fails Scenario.names 0
                   (Scenario.hooked 42 0))
  = Some "could not create arguments for user trace function"
  /\ fatal_message (@hpy_trace_on_exit Scenario.observer_fails Scenario.names 0 0 0
                      (mkTimespec 1 0) (mkTimespec 2 0) (Scenario.hooked 0 43))
     = Some "error when executing on-exit trace function".
Proof.
  split.
  - exact (proj1 (@hooks_fatal_endings Scenario.tuple_fails Scenario.names 0%nat 0 0
                    (mkTimespec 1 0) (mkTimespec 2 0) (Scenario.hooked 42 0) _ 0
                    timespec_zero eq_refl eq_refl eq_refl)).
  - exact (proj1 (proj2 (@hooks_fatal_endings Scenario.observer_fails Scenario.names
                           0%nat 0 0 (mkTimespec 1 0) (mkTimespec 2 0)
                           (Scenario.hooked 0 43) _ 0 timespec_zero
                           eq_refl eq_refl eq_refl))).
Defined.

Lemma hooks_leave_observer_result_open_witness :
  exists s',
    @hpy_trace_on_exit Scenario.healthy Scenario.names 0 0 0
      (mkTimespec 1 0) (mkTimespec 2 0) (Scenario.hooked 0 43) = Returned tt s'
    /\ closed_handles (log s') = [1000; 1001]
    /\ observer_calls (log s') = [CallTupleDict 43 1001 HPy_NULL 1003].
Proof.
  destruct (@hpy_trace_on_exit Scenario.healthy Scenario.names 0 0 0
              (mkTimespec 1 0) (mkTimespec 2 0) (Scenario.hooked 0 43))
    as [[] s1 | msg s1 |] eqn:Hrun;
    [| vm_compute in Hrun; discriminate | vm_compute in Hrun; discriminate].
  exists s1. split; [reflexivity|].
  destruct (@hooks_leave_observer_result_open Scenario.healthy Scenario.names
              0%nat (mkTimespec 1 0) (mkTimespec 2 0) (Scenario.hooked 0 43) _ 0
              timespec_zero eq_refl eq_refl eq_refl) as [_ Hexit].
  destruct (Hexit s1 eq_refl Hrun) as (Hlog & Hclosed & _ & _).
  split; [exact Hclosed|]. rewrite Hlog. reflexivity.
Defined.

Lemma init_retry_after_no_memory_witness :
  exists s1 s2 freq,
    @hpy_trace_ctx_init Recovery.memory_returns 3 7%nat Scenario.blank = Returned (-1) s1
    /\ @hpy_trace_ctx_init Recovery.memory_returns 3 7%nat s1 = Returned 0 s2
    /\ _private (tctx s2) = Some (trace_ctx_init_info 3 freq 7%nat)
    /\ ctx_fields (tctx s2) = Some 7%nat
    /\ log s2 = log Scenario.blank ++ [Malloc false; OnCtx 7%nat Err_NoMemory;
                                        Malloc true; Clock_getres freq].
Proof.
  apply (@init_retry_after_no_memory Recovery.memory_returns 3 7%nat Scenario.blank);
    reflexivity.
Defined.


Lemma trace_calls_account_witness :
  exists s' info' total,
    @trace_calls Scenario.healthy Scenario.names 0
      [(mkTimespec 10 999999950, mkTimespec 11 50); (mkTimespec 11 60, mkTimespec 11 310)]
      (Scenario.hooked 0 0) = Returned tt s'
    /\ _private (tctx s') = Some info'
    /\ call_counts info' = [2; 0; 0]
    /\ durations info' = <[0%nat := total]> (replicate 3 timespec_zero)
    /\ to_nanoseconds total = 350.
Proof.
  destruct (@trace_calls_account Scenario.healthy Scenario.names 0%nat
              [(mkTimespec 10 999999950, mkTimespec 11 50);
               (mkTimespec 11 60, mkTimespec 11 310)]
              (Scenario.hooked 0 0) _ 0 timespec_zero eq_refl eq_refl eq_refl
              eq_refl eq_refl)
    as (s' & info' & total & Hrun & _ & Hp & Hcounts & Hdur & Htotal).
  - repeat constructor; unfold valid_timestamp, ts_le, LONG_MAX, FREQ_NSEC;
      cbn [fst snd tv_sec tv_nsec]; lia.
  - lia.
  - vm_compute. reflexivity.
  - cbn. lia.
  - cbn. lia.
  - vm_compute. discriminate.
  - vm_compute. discriminate.
  - exists s', info', total. split; [exact Hrun|]. split; [exact Hp|].
    split; [exact Hcounts|]. split; [exact Hdur | exact Htotal].
Defined.

Lemma on_enter_counter_is_modular_witness :
  exists s' info',
    repeat_call 1 (@hpy_trace_on_enter Scenario.healthy Scenario.names 0)
      Recovery.saturated = Returned tt s'
    /\ _private (tctx s') = Some info'
    /\ call_counts info' = [0; 0; 0].
Proof.
  destruct (@on_enter_counter_is_modular Scenario.healthy Scenario.names 0%nat 1%nat
              Recovery.saturated _ (2 ^ 64 - 1) eq_refl eq_refl eq_refl)
    as (s' & info' & Hrun & Hp & Hcounts).
  - unfold UINT64_MOD. lia.
  - exists s', info'. split; [exact Hrun|]. split; [exact Hp | exact Hcounts].
Defined.

(** ** A call whose clock reads failed *)

(** X18: when [hpy_trace_on_enter] has returned and the clock test of the
    matching [hpy_trace_on_exit] fails, the run ends in [HPy_FatalError] with
    the clock message, with [call_counts[id]] incremented for the call and
    the durations as they were before it. *)
Theorem entered_call_with_failed_clock `{UnderlyingContext} (names : nat -> string)
    (id : nat) (r0 r1 : Z) (ts_start ts_end : timespec) (s s1 : state)
    (info r : HPyTraceInfo) (c : Z) :
  _private (tctx s) = Some info ->
  call_counts info !! id = Some c ->
  hpy_trace_on_enter names id s = Returned r s1 ->
  CLOCK_FAILED r0 r1 = true ->
  exists s2 info2,
    hpy_trace_on_exit names id r0 r1 ts_start ts_end s1 = Fatal clock_msg s2
    /\ _private (tctx s2) = Some info2
    /\ call_counts info2 = <[id := wrap_uint64 (c + 1)]> (call_counts info)
    /\ durations info2 = durations info.
Proof.
  intros Hp Hc Henter Hclk.
  destruct (on_enter_increments names id s info c Hp Hc) as (s' & Hfin & Hp1).
  rewrite Henter in Hfin. injection Hfin as <-.
  rewrite (on_exit_clock_failed_steps names id r0 r1 ts_start ts_end s1 _ Hp1 Hclk).
  eexists. exists (counted info id c). split; [reflexivity|].
  split; [exact Hp1|]. split; reflexivity.
Qed.

Lemma entered_call_with_failed_clock_witness :
  exists s2 info2,
    @hpy_trace_on_exit Scenario.healthy Scenario.names 0 0 (-1)
      (mkTimespec 1 0) (mkTimespec 2 0)
      (with_info (Scenario.hooked 0 0)
         (counted (mkInfo 7%nat Scenario.a_resolution [0; 0; 0]
                     (replicate 3 timespec_zero) 0 0) 0 0))
    = Fatal clock_msg s2
    /\ _private (tctx s2) = Some info2
    /\ call_counts info2 = [1; 0; 0]
    /\ durations info2 = replicate 3 timespec_zero.
Proof.
  apply (@entered_call_with_failed_clock Scenario.healthy Scenario.names 0%nat 0 (-1)
           (mkTimespec 1 0) (mkTimespec 2 0) (Scenario.hooked 0 0) _ _ _ 0
           eq_refl eq_refl eq_refl eq_refl).
Defined.
